(** * Build-time page pipeline of the project detail page

    A shallow embedding of [getStaticPaths] and [getStaticProps] of the
    project detail page, together with the part of the JavaScript runtime
    they rely on: nullish values, promises that fulfil or reject,
    IEEE-754 doubles, [Math.round], [Number] applied to a string and
    [String.prototype.replace] with a global pattern. *)

From Stdlib Require Import ZArith List String Ascii Bool Lia QArith.
From Stdlib Require Import Floats.SpecFloat.
Import ListNotations.
Local Open Scope string_scope.
Local Open Scope Z_scope.

(** ** JavaScript values *)

Module JS.

(** A value of type [A | null | undefined]. *)
Inductive nullable (A : Type) : Type :=
  | null : nullable A
  | undefined : nullable A
  | value : A -> nullable A.
Arguments null {A}.
Arguments undefined {A}.
Arguments value {A} _.

(** [x ?? d] *)
Definition coalesce {A : Type} (x : nullable A) (d : A) : A :=
  match x with
  | value a => a
  | null | undefined => d
  end.

(** [x ?? null], whose result is [A | null]: the option type, [None]
    standing for [null]. *)
Definition coalesce_null {A : Type} (x : nullable A) : option A :=
  match x with
  | value a => Some a
  | null | undefined => None
  end.

(** An [Error] object: its [name] and its [message]. *)
Record exn : Type := mkExn { exn_name : string; exn_message : string }.

(** [new Error(message)] *)
Definition Error (message : string) : exn := mkExn "Error" message.

(** The state of a promise once it has settled; an [async] function is a
    computation in this error monad, [await] being its bind and [throw]
    producing [rejected]. *)
Inductive settled (A : Type) : Type :=
  | fulfilled : A -> settled A
  | rejected : exn -> settled A.
Arguments fulfilled {A} _.
Arguments rejected {A} _.

Definition await {A B : Type} (p : settled A) (k : A -> settled B) : settled B :=
  match p with
  | fulfilled a => k a
  | rejected e => rejected e
  end.

Definition throw {A : Type} (e : exn) : settled A := rejected e.

(** A promise observed from outside: how it settled and at which instant
    of the event loop. *)
Record promise (A : Type) : Type :=
  mkPromise { settled_at : nat; outcome : settled A }.
Arguments mkPromise {A} _ _.
Arguments settled_at {A} _.
Arguments outcome {A} _.

(** The earliest rejection among the promises, the leftmost one among
    those rejected at the same instant. *)
Fixpoint first_rejection {A : Type} (ps : list (promise A)) : option (nat * exn) :=
  match ps with
  | [] => None
  | p :: rest =>
      match outcome p, first_rejection rest with
      | fulfilled _, r => r
      | rejected e, None => Some (settled_at p, e)
      | rejected e, Some (t, e') =>
          if (settled_at p <=? t)%nat then Some (settled_at p, e) else Some (t, e')
      end
  end.

Fixpoint fulfilled_values {A : Type} (ps : list (promise A)) : list A :=
  match ps with
  | [] => []
  | p :: rest =>
      match outcome p with
      | fulfilled a => a :: fulfilled_values rest
      | rejected _ => fulfilled_values rest
      end
  end.

(** [await Promise.all(ps)]: rejects with the first rejection if there is
    one, and otherwise fulfils with the values in the order of [ps]. *)
Definition Promise_all {A : Type} (ps : list (promise A)) : settled (list A) :=
  match first_rejection ps with
  | Some (_, e) => rejected e
  | None => fulfilled (fulfilled_values ps)
  end.

End JS.

Export JS.

Notation "x <- p ;; k" := (await p (fun x => k))
  (at level 61, p at next level, right associativity).

(** ** IEEE-754 binary64 numbers *)

Module Double.

Definition prec : Z := 53.
Definition emax : Z := 1024.

(** A JavaScript Number. *)
Definition double : Type := spec_float.

Definition NaN : double := S754_nan.
Definition Infinity (neg : bool) : double := S754_infinity neg.

(** The Number of a mathematical integer, rounded to nearest, ties to
    even. *)
Definition of_Z (k : Z) : double := binary_normalize prec emax k 0 false.

(** The Number of the decimal [m * 10^e] with sign [neg], rounded to
    nearest, ties to even. *)
Definition of_decimal (neg : bool) (m : N) (e : Z) : double :=
  match m with
  | N0 => S754_zero neg
  | Npos p =>
      if 0 <=? e
      then binary_round prec emax neg (p * Z.to_pos (10 ^ e)) 0
      else SFdiv prec emax (S754_finite neg p 0)
                           (S754_finite false (Z.to_pos (10 ^ (- e))) 0)
  end.

(** [x * y] *)
Definition mul (x y : double) : double := SFmul prec emax x y.

(** The signed numerator of a finite Number over the power of two
    [2^(-e)]. *)
Definition signed (s : bool) (m : positive) : Z := cond_Zopp s (Zpos m).

(** [floor (x + 1/2)] for the finite Number [(-1)^s * m * 2^e], [e < 0]. *)
Definition round_half_up (s : bool) (m : positive) (e : Z) : Z :=
  (2 * signed s m + 2 ^ (- e)) / 2 ^ (- e + 1).

(** [Math.round(x)]: [x] itself when it is not finite or is integral;
    otherwise the closest integer, the one toward +Infinity on a tie,
    a zero result keeping the sign of [x]. *)
Definition Math_round (x : double) : double :=
  match x with
  | S754_finite s m e =>
      if 0 <=? e then x
      else match round_half_up s m e with
           | Z0 => S754_zero s
           | k => of_Z k
           end
  | _ => x
  end.

(** The value of a Number as a rational, for the numbers that have one. *)
Definition to_Q (x : double) : option Q :=
  match x with
  | S754_zero _ => Some 0%Q
  | S754_finite s m e =>
      Some (if 0 <=? e then inject_Z (signed s m * 2 ^ e)
            else Qmake (signed s m) (Z.to_pos (2 ^ (- e))))
  | S754_infinity _ | S754_nan => None
  end.

End Double.

Import Double.

(** ** Strings

    A string is a sequence of code units; the strings of this program
    (identifiers, URLs, header values, which are byte strings) are modelled
    with code units below 256. *)

Module Str.

Definition LF : ascii := "010"%char.
Definition backslash : ascii := "\"%char.

Definition code (c : ascii) : N := N_of_ascii c.

(** The code units of [StrWhiteSpaceChar] below 256: TAB, LF, VT, FF, CR,
    SP and NBSP. *)
Definition is_whitespace (c : ascii) : bool :=
  let n := code c in
  ((9 <=? n) && (n <=? 13) || (n =? 32) || (n =? 160))%N.

Definition is_digit (c : ascii) : bool :=
  let n := code c in ((48 <=? n) && (n <=? 57))%N.

(** The value of a digit of a literal in the given radix, if it is one. *)
Definition digit_of (radix : N) (c : ascii) : option N :=
  let n := code c in
  let v := (if (48 <=? n) && (n <=? 57) then Some (n - 48)
            else if (97 <=? n) && (n <=? 102) then Some (n - 87)
            else if (65 <=? n) && (n <=? 70) then Some (n - 55)
            else None)%N in
  match v with
  | Some d => if (d <? radix)%N then Some d else None
  | None => None
  end.

Definition is_digit_of (radix : N) (c : ascii) : bool :=
  match digit_of radix c with Some _ => true | None => false end.

(** The mathematical value of a sequence of digits, most significant
    first. *)
Definition digits_value (radix : N) (ds : list ascii) : N :=
  fold_left (fun acc c =>
    (acc * radix + match digit_of radix c with Some d => d | None => 0 end)%N)
    ds 0%N.

Fixpoint drop_while (p : ascii -> bool) (cs : list ascii) : list ascii :=
  match cs with
  | [] => []
  | c :: rest => if p c then drop_while p rest else cs
  end.

Fixpoint take_while (p : ascii -> bool) (cs : list ascii) : list ascii :=
  match cs with
  | [] => []
  | c :: rest => if p c then c :: take_while p rest else []
  end.

(** Removal of the [StrWhiteSpace] at both ends. *)
Definition trim (cs : list ascii) : list ascii :=
  rev (drop_while is_whitespace (rev (drop_while is_whitespace cs))).

Definition chars (s : string) : list ascii := list_ascii_of_string s.

Definition eqb_chars (a b : list ascii) : bool :=
  String.eqb (string_of_list_ascii a) (string_of_list_ascii b).

(** [ExponentPart], or nothing: the exponent it denotes. *)
Definition exponent_part (cs : list ascii) : option Z :=
  match cs with
  | [] => Some 0
  | c :: rest =>
      if Ascii.eqb c "e" || Ascii.eqb c "E" then
        let '(neg, ds) :=
          match rest with
          | s :: ds' =>
              if Ascii.eqb s "+" then (false, ds')
              else if Ascii.eqb s "-" then (true, ds')
              else (false, rest)
          | [] => (false, rest)
          end in
        match ds with
        | [] => None
        | _ :: _ =>
            if forallb is_digit ds
            then Some (cond_Zopp neg (Z.of_N (digits_value 10 ds)))
            else None
        end
      else None
  end.

(** [StrUnsignedDecimalLiteral] with the sign read before it. *)
Definition unsigned_decimal (neg : bool) (cs : list ascii) : double :=
  if eqb_chars cs (chars "Infinity") then Infinity neg
  else
    let ip := take_while is_digit cs in
    let r1 := drop_while is_digit cs in
    let '(fp, r2) :=
      match r1 with
      | d :: r =>
          if Ascii.eqb d "."
          then (take_while is_digit r, drop_while is_digit r)
          else ([], r1)
      | [] => ([], r1)
      end in
    match (ip ++ fp)%list with
    | [] => NaN
    | _ :: _ =>
        match exponent_part r2 with
        | Some ex =>
            of_decimal neg (digits_value 10 (ip ++ fp)%list)
                       (ex - Z.of_nat (List.length fp))
        | None => NaN
        end
    end.

(** [StrDecimalLiteral] *)
Definition decimal_literal (cs : list ascii) : double :=
  match cs with
  | s :: rest =>
      if Ascii.eqb s "+" then unsigned_decimal false rest
      else if Ascii.eqb s "-" then unsigned_decimal true rest
      else unsigned_decimal false cs
  | [] => unsigned_decimal false cs
  end.

(** The radix announced by the second character of a
    [NonDecimalIntegerLiteral]. *)
Definition radix_of (c : ascii) : option N :=
  if Ascii.eqb c "x" || Ascii.eqb c "X" then Some 16%N
  else if Ascii.eqb c "o" || Ascii.eqb c "O" then Some 8%N
  else if Ascii.eqb c "b" || Ascii.eqb c "B" then Some 2%N
  else None.

(** [StringToNumber]: the empty or blank string is +0, a
    [StrNumericLiteral] between optional white space is its rounded
    value, anything else is NaN. *)
Definition StringToNumber (cs : list ascii) : double :=
  match trim cs with
  | [] => S754_zero false
  | z :: c :: ds =>
      match (if Ascii.eqb z "0" then radix_of c else None) with
      | Some radix =>
          match ds with
          | [] => NaN
          | _ :: _ =>
              if forallb (is_digit_of radix) ds
              then of_Z (Z.of_N (digits_value radix ds))
              else NaN
          end
      | None => decimal_literal (z :: c :: ds)
      end
  | t => decimal_literal t
  end.

(** [Number(s)] for a string [s]. *)
Definition Number (s : string) : double := StringToNumber (chars s).

(** [s.replace(/\\n/g, '\n')]: every backslash followed by [n] becomes a
    line feed, scanning from the left. *)
Fixpoint replace_escaped_newlines (s : string) : string :=
  match s with
  | EmptyString => EmptyString
  | String c rest =>
      match rest with
      | String d rest' =>
          if Ascii.eqb c backslash && Ascii.eqb d "n"%char
          then String LF (replace_escaped_newlines rest')
          else String c (replace_escaped_newlines rest)
      | EmptyString => String c EmptyString
      end
  end.

End Str.

Import Str.

(** ** Data of the page *)

(** [DownloadType] *)
Module DownloadType.
Inductive t : Type :=
  | aggregated_results
  | aggregated_results_with_geometry
  | hot_tasking_manager_geometries
  | moderate_to_high_agreement_yes_maybe_geometries
  | groups
  | history
  | results
  | tasks
  | users
  | area_of_interest.
End DownloadType.

(** [DownloadFileType] *)
Module DownloadFileType.
Inductive t : Type := geojson | csv.
End DownloadFileType.

(** [Omit<UrlInfo, 'size' | 'ok'>] *)
Module Url.
Record t : Type := mk {
  name : DownloadType.t;
  type : DownloadFileType.t;
  url : string
}.
End Url.

(** [UrlInfo] *)
Module UrlInfo.
Record t : Type := mk {
  name : DownloadType.t;
  type : DownloadFileType.t;
  url : string;
  ok : bool;
  size : double
}.
End UrlInfo.

(** A route parameter: [string | string[] | undefined]. *)
Inductive param : Type :=
  | param_undefined
  | param_string (s : string)
  | param_array (l : list string).

(** The [params] of the page context, which may itself be missing. *)
Module Params.
Record t : Type := mk { id : param; locale : param }.
End Params.

Module Context.
Record t : Type := mk { params : option Params.t }.
End Context.

(** [context?.params?.locale] and [context?.params?.id] *)
Definition context_param (context : Context.t) (field : Params.t -> param) : param :=
  match Context.params context with
  | Some p => field p
  | None => param_undefined
  end.

(** The string a route parameter becomes inside a template literal. *)
Definition to_template (p : param) : string :=
  match p with
  | param_undefined => "undefined"
  | param_string s => s
  | param_array l => String.concat "," l
  end.

(** [s === p] for a string [s]. *)
Definition strict_eq (s : string) (p : param) : bool :=
  match p with
  | param_string s' => String.eqb s s'
  | param_undefined | param_array _ => false
  end.

(** The response to a probe: its [ok] flag and the [get] method of its
    headers, [None] standing for [null]. *)
Module Response.
Record t : Type := mk { ok : bool; headers_get : string -> option string }.
End Response.

(** What [matter] returns, as far as the page reads it. *)
Module GrayMatterFile.
Record t : Type := mk { content : string }.
End GrayMatterFile.

(** The properties of a feature of the project centroids. *)
Module Properties.
Record t (ProjectStatus : Type) : Type := mk {
  project_id : string;
  name : string;
  status : ProjectStatus;
  progress : nullable double;
  area_sqkm : nullable double;
  number_of_users : nullable double;
  project_details : string
}.
Arguments mk {ProjectStatus}.
Arguments project_id {ProjectStatus}.
Arguments name {ProjectStatus}.
Arguments status {ProjectStatus}.
Arguments progress {ProjectStatus}.
Arguments area_sqkm {ProjectStatus}.
Arguments number_of_users {ProjectStatus}.
Arguments project_details {ProjectStatus}.
End Properties.

(** A feature of the project centroids. *)
Module Centroid.
Record t (ProjectStatus : Type) : Type := mk { properties : Properties.t ProjectStatus }.
Arguments mk {ProjectStatus}.
Arguments properties {ProjectStatus}.
End Centroid.

(** A feature of the project geometries. *)
Module GeoProperties.
Record t : Type := mk { project_id : string }.
End GeoProperties.

Module GeoFeature.
Record t (Geometry : Type) : Type := mk {
  properties : GeoProperties.t;
  geometry : nullable Geometry
}.
Arguments mk {Geometry}.
Arguments properties {Geometry}.
Arguments geometry {Geometry}.
End GeoFeature.

(** A feature collection. *)
Module FeatureCollection.
Record t (F : Type) : Type := mk { features : list F }.
Arguments mk {F}.
Arguments features {F}.
End FeatureCollection.

(** The [props] of the page. *)
Module Props.
Record t (SSRConfig ProjectStatus Geometry History : Type) : Type := mk {
  translations : SSRConfig;
  totalProgress : option double;
  totalArea : double;
  totalContributors : option double;
  name : string;
  description : string;
  status : ProjectStatus;
  projectGeoJSON : option Geometry;
  history : History;
  urls : list UrlInfo.t
}.
Arguments mk {SSRConfig ProjectStatus Geometry History}.
Arguments translations {SSRConfig ProjectStatus Geometry History}.
Arguments totalProgress {SSRConfig ProjectStatus Geometry History}.
Arguments totalArea {SSRConfig ProjectStatus Geometry History}.
Arguments totalContributors {SSRConfig ProjectStatus Geometry History}.
Arguments name {SSRConfig ProjectStatus Geometry History}.
Arguments description {SSRConfig ProjectStatus Geometry History}.
Arguments status {SSRConfig ProjectStatus Geometry History}.
Arguments projectGeoJSON {SSRConfig ProjectStatus Geometry History}.
Arguments history {SSRConfig ProjectStatus Geometry History}.
Arguments urls {SSRConfig ProjectStatus Geometry History}.
End Props.

(** An entry of [paths] and what [getStaticPaths] returns. *)
Module Path.
Record t : Type := mk { id : string; locale : string }.
End Path.

Module StaticPaths.
Record t : Type := mk { paths : list Path.t; fallback : bool }.
End StaticPaths.

(** ** The pipeline *)

Section Pipeline.

(** The types the page only passes along: the translation bundle of
    next-i18next, [ProjectStatus] of utils/common, the polygon of a
    project and the payload of the project history. *)
Variables SSRConfig ProjectStatus Geometry History : Type.

(** [i18nextConfig.i18n.locales] *)
Variable locales : list string.

(** [matter] of gray-matter and [remark().use(html).process(_)] of remark,
    the latter read through [toString]. *)
Variable matter : string -> settled GrayMatterFile.t.
Variable remark_html : string -> settled string.

(** Everything one build reads from outside: the translation bundles, the
    three request helpers of utils/requests, and [fetch] with method
    HEAD. *)
Record Upstream : Type := mkUpstream {
  serverSideTranslations : param -> list string -> settled SSRConfig;
  getProjectCentroids : settled (FeatureCollection.t (Centroid.t ProjectStatus));
  getProjectGeometries : settled (FeatureCollection.t (GeoFeature.t Geometry));
  getProjectHistory : string -> settled History;
  fetch_head : string -> promise Response.t
}.

Definition getStaticPaths (w : Upstream) : settled StaticPaths.t :=
  projects <- getProjectCentroids w ;;
  let pathsWithParams :=
    flat_map (fun feature =>
      let withLocales :=
        map (fun lng =>
               Path.mk (Properties.project_id (Centroid.properties feature)) lng)
            locales in
      withLocales) (FeatureCollection.features projects) in
  fulfilled (StaticPaths.mk pathsWithParams false).

(** The array [urls] of [getStaticProps]. *)
Definition urls (projectId : param) : list Url.t :=
  let id := to_template projectId in
  [ Url.mk DownloadType.aggregated_results DownloadFileType.csv
      ("https://apps.mapswipe.org/api/agg_results/agg_results_" ++ id ++ ".csv.gz");
    Url.mk DownloadType.aggregated_results_with_geometry DownloadFileType.geojson
      ("https://apps.mapswipe.org/api/agg_results/agg_results_" ++ id ++ "_geom.geojson.gz");
    Url.mk DownloadType.hot_tasking_manager_geometries DownloadFileType.geojson
      ("https://apps.mapswipe.org/api/hot_tm/hot_tm_" ++ id ++ ".geojson");
    Url.mk DownloadType.moderate_to_high_agreement_yes_maybe_geometries DownloadFileType.geojson
      ("https://apps.mapswipe.org/api/yes_maybe/yes_maybe_" ++ id ++ ".geojson");
    Url.mk DownloadType.groups DownloadFileType.geojson
      ("https://apps.mapswipe.org/api/groups/groups_" ++ id ++ ".csv.gz");
    Url.mk DownloadType.history DownloadFileType.geojson
      ("https://apps.mapswipe.org/api/history/history_" ++ id ++ ".csv");
    Url.mk DownloadType.results DownloadFileType.geojson
      ("https://apps.mapswipe.org/api/results/results_" ++ id ++ ".csv.gz");
    Url.mk DownloadType.tasks DownloadFileType.geojson
      ("https://apps.mapswipe.org/api/tasks/tasks_" ++ id ++ ".csv.gz");
    Url.mk DownloadType.users DownloadFileType.geojson
      ("https://apps.mapswipe.org/api/users/users_" ++ id ++ ".csv.gz");
    Url.mk DownloadType.area_of_interest DownloadFileType.geojson
      ("https://apps.mapswipe.org/api/project_geometries/project_geom_" ++ id ++ ".geojson") ].

(** [res.headers.get('content-length') ?? '0'] *)
Definition content_length (res : Response.t) : string :=
  match Response.headers_get res "content-length" with
  | Some v => v
  | None => "0"
  end.

(** The object one probe returns from the response it awaited. *)
Definition urlInfo (url : Url.t) (res : Response.t) : UrlInfo.t :=
  UrlInfo.mk (Url.name url) (Url.type url) (Url.url url)
    (Response.ok res)
    (Number (content_length res)).

(** [urls.map(async (url) => ...)]: one promise per entry, settling when
    its [fetch] does. *)
Definition urlResponsePromises (w : Upstream) (projectId : param)
  : list (promise UrlInfo.t) :=
  map (fun url =>
         let p := fetch_head w (Url.url url) in
         mkPromise (settled_at p)
                   (res <- outcome p ;; fulfilled (urlInfo url res)))
      (urls projectId).

Definition totalProgress_of (progress : nullable double) : option double :=
  match progress with
  | value p => Some (Math_round (mul p (of_Z 100)))
  | null | undefined => None
  end.

Definition totalArea_of (area_sqkm : nullable double) : double :=
  Math_round (coalesce area_sqkm (of_Z 0)).

Definition getStaticProps (w : Upstream) (context : Context.t)
  : settled (Props.t SSRConfig ProjectStatus Geometry History) :=
  let locale := context_param context Params.locale in
  let projectId := context_param context Params.id in
  translations <- serverSideTranslations w locale ["project"; "common"] ;;
  projects <- getProjectCentroids w ;;
  match find (fun feature =>
                strict_eq (Properties.project_id (Centroid.properties feature)) projectId)
             (FeatureCollection.features projects) with
  | None => throw (Error ("Could not get project " ++ to_template projectId))
  | Some project =>
      geojsons <- getProjectGeometries w ;;
      let geojson :=
        match find (fun feature =>
                      strict_eq (GeoProperties.project_id (GeoFeature.properties feature)) projectId)
                   (FeatureCollection.features geojsons) with
        | Some feature => GeoFeature.geometry feature
        | None => undefined
        end in
      historyJSON <- getProjectHistory w (Properties.project_id (Centroid.properties project)) ;;
      matterResult <- matter (Properties.project_details (Centroid.properties project)) ;;
      contentHtml <- remark_html (replace_escaped_newlines (GrayMatterFile.content matterResult)) ;;
      urlResponses <- Promise_all (urlResponsePromises w projectId) ;;
      fulfilled
        (Props.mk translations
           (totalProgress_of (Properties.progress (Centroid.properties project)))
           (totalArea_of (Properties.area_sqkm (Centroid.properties project)))
           (coalesce_null (Properties.number_of_users (Centroid.properties project)))
           (Properties.name (Centroid.properties project))
           contentHtml
           (Properties.status (Centroid.properties project))
           (coalesce_null geojson)
           historyJSON
           urlResponses)
  end.

End Pipeline.

Arguments mkUpstream {SSRConfig ProjectStatus Geometry History}.
Arguments serverSideTranslations {SSRConfig ProjectStatus Geometry History}.
Arguments getProjectCentroids {SSRConfig ProjectStatus Geometry History}.
Arguments getProjectGeometries {SSRConfig ProjectStatus Geometry History}.
Arguments getProjectHistory {SSRConfig ProjectStatus Geometry History}.
Arguments fetch_head {SSRConfig ProjectStatus Geometry History}.
Arguments getStaticPaths {SSRConfig ProjectStatus Geometry History}.
Arguments urlResponsePromises {SSRConfig ProjectStatus Geometry History}.
Arguments getStaticProps {SSRConfig ProjectStatus Geometry History}.

(** ** The pages *)

(** A React element, as far as the two pages build one: a host element
    with its class name, a component with its props, a text, or the
    nothing a null child renders. *)
Module React.

Inductive prop (Geometry : Type) : Type :=
  | prop_string (s : string)
  | prop_geoJSON (g : Geometry).
Arguments prop_string {Geometry} _.
Arguments prop_geoJSON {Geometry} _.

#[warnings="-register-all"]
Inductive element (Geometry : Type) : Type :=
  | host (tag : string) (className : option string)
         (children : list (element Geometry))
  | component (name : string) (props : list (string * prop Geometry))
              (children : list (element Geometry))
  | text (s : string)
  | nothing.
Arguments host {Geometry} _ _ _.
Arguments component {Geometry} _ _ _.
Arguments text {Geometry} _.
Arguments nothing {Geometry}.

(** A value interpolated into a translated text. *)
Inductive interpolation (ProjectStatus : Type) : Type :=
  | of_status (s : ProjectStatus)
  | of_number (n : option double).
Arguments of_status {ProjectStatus} _.
Arguments of_number {ProjectStatus} _.

End React.

Import React.

(** The class names of the style sheet of the project page. *)
Module Styles.
Record t : Type := mk {
  project : string;
  statsSection : string;
  content : string;
  stats : string;
  chartContainer : string;
  overviewSection : string;
  overviewContent : string;
  description : string;
  mapContainer : string;
  projectsMap : string
}.
End Styles.

(** An entry of the [paths] of a page that only depends on the locale. *)
Module LocalePath.
Record t : Type := mk { locale : string }.
End LocalePath.

Module LocalePaths.
Record t : Type := mk { fallback : bool; paths : list LocalePath.t }.
End LocalePaths.

Section ProjectPage.

Variables SSRConfig ProjectStatus Geometry History : Type.

(** [i18nextConfig.i18n.locales], the style sheet, [_cs] of
    @togglecorp/fujs and [useTranslation] of next-i18next, which gives the
    function [t] of a namespace. *)
Variable locales : list string.
Variable styles : Styles.t.
Variable _cs : list (option string) -> string.
Variable useTranslation :
  string -> string -> list (string * interpolation ProjectStatus) -> string.

Definition getI18nPaths : list LocalePath.t :=
  map (fun lng => LocalePath.mk lng) locales.

(** The component [Project], given its optional [className] and the props
    of the page. *)
Definition Project (className : option string)
    (props : Props.t SSRConfig ProjectStatus Geometry History) : element Geometry :=
  let totalProgress := Props.totalProgress props in
  let totalArea := Props.totalArea props in
  let totalContributors := Props.totalContributors props in
  let name := Props.name props in
  let description := Props.description props in
  let status := Props.status props in
  let projectGeoJSON := Props.projectGeoJSON props in
  let t := useTranslation "project" in
  host "div" (Some (_cs [Some (Styles.project styles); className]))
    [ component "Hero" [("title", prop_string name)] [];
      component "Section"
        [("className", prop_string (Styles.statsSection styles));
         ("contentClassName", prop_string (Styles.content styles))]
        [ host "div" (Some (Styles.stats styles))
            [ host "div" None
                [text (t "project-status-text" [("status", of_status status)])];
              host "div" None
                [text (t "project-progress-text"
                         [("progress", of_number totalProgress)])];
              host "div" None
                [text (t "project-total-area-text"
                         [("area", of_number (Some totalArea))])];
              host "div" None
                [text (t "project-contributors-text"
                         [("contributors", of_number totalContributors)])] ];
          host "div" (Some (Styles.chartContainer styles)) [text "Chart"] ];
      component "Section"
        [("className", prop_string (Styles.overviewSection styles))]
        [ host "div" (Some (Styles.overviewContent styles))
            [ host "div" (Some (Styles.content styles))
                [ component "Heading" [("size", prop_string "large")]
                    [text (t "overview-section-title" [])];
                  host "div" (Some (Styles.description styles))
                    [ component "HtmlOutput"
                        [("className", prop_string (Styles.description styles));
                         ("content", prop_string description)]
                        [] ] ];
              match projectGeoJSON with
              | Some geoJSON =>
                  host "div" (Some (Styles.mapContainer styles))
                    [ component "DynamicProjectMap"
                        [("className", prop_string (Styles.projectsMap styles));
                         ("geoJSON", prop_geoJSON geoJSON)]
                        [] ]
              | None => nothing
              end ] ] ].

End ProjectPage.

Arguments Project {SSRConfig ProjectStatus Geometry History}.

(** The page get-involved. *)
Module GetInvolved.

Module Props.
Record t (SSRConfig : Type) : Type := mk { translations : SSRConfig }.
Arguments mk {SSRConfig}.
Arguments translations {SSRConfig}.
End Props.

Section Page.

Variables SSRConfig ProjectStatus Geometry History : Type.
Variable locales : list string.

(** The class name [styles.getInvolved] of the style sheet of the page. *)
Variable getInvolved : string.
Variable _cs : list (option string) -> string.
Variable useTranslation :
  string -> string -> list (string * interpolation ProjectStatus) -> string.

Definition GetInvolved (className : option string) (props : Props.t SSRConfig)
  : element Geometry :=
  let t := useTranslation "get-involved" in
  host "div" (Some (_cs [Some getInvolved; className]))
    [ host "div" None [text (t "page-content" []); text (t "page-description" [])] ].

Definition getI18nPaths : list LocalePath.t :=
  map (fun lng => LocalePath.mk lng) locales.

Definition getStaticPaths : LocalePaths.t :=
  LocalePaths.mk false getI18nPaths.

Definition getStaticProps (w : Upstream SSRConfig ProjectStatus Geometry History)
    (context : Context.t) : settled (Props.t SSRConfig) :=
  let locale := context_param context Params.locale in
  translations <- serverSideTranslations w locale ["get-involved"; "common"] ;;
  fulfilled (Props.mk translations).

End Page.

Arguments GetInvolved {SSRConfig ProjectStatus Geometry}.
Arguments getStaticProps {SSRConfig ProjectStatus Geometry History}.

End GetInvolved.

(** * Vocabulary of the properties *)

(** ** Values of Numbers *)

(** The Number [x] has the rational value [q]. *)
Definition has_value (x : double) (q : Q) : Prop :=
  exists q', to_Q x = Some q' /\ (q' == q)%Q.

(** A zero or a finite Number in its normal representation. *)
Definition is_finite (x : double) : bool :=
  match x with
  | S754_zero _ => true
  | S754_finite _ _ _ => valid_binary prec emax x
  | S754_infinity _ | S754_nan => false
  end.

(** [r] is an integer within one half of [x], the upper one when [x] lies
    halfway between two integers. *)
Definition nearest_integer_of (x r : double) : Prop :=
  exists (q : Q) (k : Z),
    has_value x q /\ has_value r (inject_Z k)
    /\ (inject_Z k - (1 # 2) <= q)%Q /\ (q < inject_Z k + (1 # 2))%Q.

(** ** The grammar of numeric strings

    [StringNumericLiteral] of ECMAScript, over code units below 256. *)

Module Grammar.

Local Open Scope char_scope.
Local Open Scope list_scope.

Definition StrWhiteSpace (ws : list ascii) : Prop :=
  Forall (fun c => is_whitespace c = true) ws.

Definition DecimalDigits (ds : list ascii) : Prop :=
  ds <> [] /\ Forall (fun c => is_digit c = true) ds.

Definition opt (P : list ascii -> Prop) (cs : list ascii) : Prop :=
  cs = [] \/ P cs.

Inductive SignedInteger : list ascii -> Prop :=
  | SignedInteger_digits ds : DecimalDigits ds -> SignedInteger ds
  | SignedInteger_plus ds : DecimalDigits ds -> SignedInteger ("+" :: ds)
  | SignedInteger_minus ds : DecimalDigits ds -> SignedInteger ("-" :: ds).

Inductive ExponentPart : list ascii -> Prop :=
  | ExponentPart_e si : SignedInteger si -> ExponentPart ("e" :: si)
  | ExponentPart_E si : SignedInteger si -> ExponentPart ("E" :: si).

Inductive StrUnsignedDecimalLiteral : list ascii -> Prop :=
  | Unsigned_Infinity : StrUnsignedDecimalLiteral (chars "Infinity")
  | Unsigned_int_dot ip fp ex :
      DecimalDigits ip -> opt DecimalDigits fp -> opt ExponentPart ex ->
      StrUnsignedDecimalLiteral (ip ++ "." :: fp ++ ex)
  | Unsigned_dot fp ex :
      DecimalDigits fp -> opt ExponentPart ex ->
      StrUnsignedDecimalLiteral ("." :: fp ++ ex)
  | Unsigned_int ip ex :
      DecimalDigits ip -> opt ExponentPart ex ->
      StrUnsignedDecimalLiteral (ip ++ ex).

Inductive StrDecimalLiteral : list ascii -> Prop :=
  | Decimal_unsigned cs : StrUnsignedDecimalLiteral cs -> StrDecimalLiteral cs
  | Decimal_plus cs : StrUnsignedDecimalLiteral cs -> StrDecimalLiteral ("+" :: cs)
  | Decimal_minus cs : StrUnsignedDecimalLiteral cs -> StrDecimalLiteral ("-" :: cs).

Inductive NonDecimalIntegerLiteral : list ascii -> Prop :=
  | NonDecimal c radix ds :
      radix_of c = Some radix -> ds <> [] ->
      Forall (fun d => is_digit_of radix d = true) ds ->
      NonDecimalIntegerLiteral ("0" :: c :: ds).

Inductive StrNumericLiteral : list ascii -> Prop :=
  | Numeric_decimal cs : StrDecimalLiteral cs -> StrNumericLiteral cs
  | Numeric_non_decimal cs : NonDecimalIntegerLiteral cs -> StrNumericLiteral cs.

Inductive StringNumericLiteral : list ascii -> Prop :=
  | String_blank ws : StrWhiteSpace ws -> StringNumericLiteral ws
  | String_literal ws1 lit ws2 :
      StrWhiteSpace ws1 -> StrNumericLiteral lit -> StrWhiteSpace ws2 ->
      StringNumericLiteral (ws1 ++ lit ++ ws2).

End Grammar.

Import Grammar.

(** A string [Number] can read as a numeric literal. *)
Definition numeric_string (s : string) : Prop := StringNumericLiteral (chars s).

(** The first character, if there is one, fails the test. *)
Definition starts_without (p : ascii -> bool) (cs : list ascii) : Prop :=
  match cs with
  | [] => True
  | c :: _ => p c = false
  end.

(** No white space anywhere. *)
Definition solid (cs : list ascii) : Prop :=
  Forall (fun c => is_whitespace c = false) cs.

(** ** Escaped line feeds *)

(** The two code units of an escaped line feed. *)
Definition escaped_newline : string := String backslash (String "n" EmptyString).

Definition newline : string := String LF EmptyString.

(** No backslash is followed by [n] anywhere in the string. *)
Fixpoint no_escaped_newline (s : string) : bool :=
  match s with
  | EmptyString => true
  | String c rest =>
      match rest with
      | String d _ =>
          negb (Ascii.eqb c backslash && Ascii.eqb d "n") && no_escaped_newline rest
      | EmptyString => true
      end
  end.

Fixpoint no_backslash (s : string) : bool :=
  match s with
  | EmptyString => true
  | String c rest => negb (Ascii.eqb c backslash) && no_backslash rest
  end.

(** ** Texts of the content renderer *)

(** A description with a one-line frontmatter block [key: val] between two
    fences, followed by its body. *)
Definition with_frontmatter (key val body : string) : string :=
  "---" ++ newline ++ key ++ ": " ++ val ++ newline ++ "---" ++ newline ++ body.

(** A small splitter and a small renderer, standing for gray-matter and
    for remark with remark-html in the examples. *)
Module Reference.

Fixpoint strip_prefix (p s : string) : option string :=
  match p, s with
  | EmptyString, _ => Some s
  | String a p', String b s' => if Ascii.eqb a b then strip_prefix p' s' else None
  | String _ _, EmptyString => None
  end.

Definition closing_fence : string := newline ++ "---" ++ newline.

Fixpoint after_fence (s : string) : option string :=
  match strip_prefix closing_fence s with
  | Some body => Some body
  | None =>
      match s with
      | String _ rest => after_fence rest
      | EmptyString => None
      end
  end.

Definition matter (s : string) : settled GrayMatterFile.t :=
  match strip_prefix "---" s with
  | Some rest =>
      match after_fence rest with
      | Some body => fulfilled (GrayMatterFile.mk body)
      | None => fulfilled (GrayMatterFile.mk "")
      end
  | None => fulfilled (GrayMatterFile.mk s)
  end.

Fixpoint split_line (s : string) : string * string :=
  match s with
  | EmptyString => ("", "")
  | String c rest =>
      if Ascii.eqb c LF then ("", rest)
      else let (l, r) := split_line rest in (String c l, r)
  end.

Definition remark_html (s : string) : settled string :=
  match strip_prefix "# " s with
  | Some rest =>
      let (title, text) := split_line rest in
      fulfilled ("<h1>" ++ title ++ "</h1>" ++ newline
                 ++ "<p>" ++ text ++ "</p>" ++ newline)
  | None => fulfilled ("<p>" ++ s ++ "</p>" ++ newline)
  end.

End Reference.

(** ** The path enumerator and the per-page build *)

(** The identifiers of the catalogue, in catalogue order. *)
Definition identifiers {ProjectStatus : Type}
    (projects : FeatureCollection.t (Centroid.t ProjectStatus)) : list string :=
  map (fun feature => Properties.project_id (Centroid.properties feature))
      (FeatureCollection.features projects).

(** The paths built from a list of features. *)
Definition pathsWithParams {ProjectStatus : Type} (locales : list string)
    (features : list (Centroid.t ProjectStatus)) : list Path.t :=
  flat_map (fun feature =>
    map (fun lng => Path.mk (Properties.project_id (Centroid.properties feature)) lng)
        locales) features.

Definition Path_eq_dec (a b : Path.t) : {a = b} + {a <> b}.
Proof. decide equality; apply string_dec. Defined.

Definition header_eq_dec (a b : option string) : {a = b} + {a <> b}.
Proof. decide equality; apply string_dec. Defined.

(** The identifier and the locale the build is asked for. *)
Definition projectId (context : Context.t) : param := context_param context Params.id.
Definition locale (context : Context.t) : param := context_param context Params.locale.

(** The two scans of [getStaticProps]. *)
Definition find_project {ProjectStatus : Type} (id : param)
    (projects : FeatureCollection.t (Centroid.t ProjectStatus)) :=
  find (fun feature =>
          strict_eq (Properties.project_id (Centroid.properties feature)) id)
       (FeatureCollection.features projects).

Definition find_geometry {Geometry : Type} (id : param)
    (geojsons : FeatureCollection.t (GeoFeature.t Geometry)) :=
  find (fun feature =>
          strict_eq (GeoProperties.project_id (GeoFeature.properties feature)) id)
       (FeatureCollection.features geojsons).

(** [geojsons.features.find(...)?.geometry] *)
Definition geojson_of {Geometry : Type} (id : param)
    (geojsons : FeatureCollection.t (GeoFeature.t Geometry)) : nullable Geometry :=
  match find_geometry id geojsons with
  | Some feature => GeoFeature.geometry feature
  | None => undefined
  end.

(** The record returned once everything has been awaited. *)
Definition assemble {SSRConfig ProjectStatus Geometry History : Type}
    (translations : SSRConfig) (project : Centroid.t ProjectStatus)
    (geojson : nullable Geometry) (historyJSON : History) (contentHtml : string)
    (urlResponses : list UrlInfo.t)
  : Props.t SSRConfig ProjectStatus Geometry History :=
  Props.mk translations
    (totalProgress_of (Properties.progress (Centroid.properties project)))
    (totalArea_of (Properties.area_sqkm (Centroid.properties project)))
    (coalesce_null (Properties.number_of_users (Centroid.properties project)))
    (Properties.name (Centroid.properties project))
    contentHtml
    (Properties.status (Centroid.properties project))
    (coalesce_null geojson)
    historyJSON
    urlResponses.

(** Everything [getStaticProps] awaits before the probes went well: the
    translations, the catalogue and the record of the identifier in it,
    the geometries, the history, the split and the rendering of the
    description. *)
Inductive joined {SSRConfig ProjectStatus Geometry History : Type}
    (matter : string -> settled GrayMatterFile.t)
    (remark_html : string -> settled string)
    (w : Upstream SSRConfig ProjectStatus Geometry History) (context : Context.t)
  : SSRConfig -> Centroid.t ProjectStatus -> nullable Geometry -> History -> string -> Prop :=
| joined_intro translations projects project geojsons historyJSON matterResult contentHtml :
    serverSideTranslations w (locale context) ["project"; "common"] = fulfilled translations ->
    getProjectCentroids w = fulfilled projects ->
    find_project (projectId context) projects = Some project ->
    getProjectGeometries w = fulfilled geojsons ->
    getProjectHistory w (Properties.project_id (Centroid.properties project))
      = fulfilled historyJSON ->
    matter (Properties.project_details (Centroid.properties project))
      = fulfilled matterResult ->
    remark_html (replace_escaped_newlines (GrayMatterFile.content matterResult))
      = fulfilled contentHtml ->
    joined matter remark_html w context translations project
           (geojson_of (projectId context) geojsons) historyJSON contentHtml.

(** The descriptor a probe result extends. *)
Definition descriptor (info : UrlInfo.t) : Url.t :=
  Url.mk (UrlInfo.name info) (UrlInfo.type info) (UrlInfo.url info).

(** The same upstream with other instants for the settling of the
    probes. *)
Definition retimed {SSRConfig ProjectStatus Geometry History : Type}
    (instant : string -> nat) (w : Upstream SSRConfig ProjectStatus Geometry History)
  : Upstream SSRConfig ProjectStatus Geometry History :=
  mkUpstream (serverSideTranslations w) (getProjectCentroids w)
             (getProjectGeometries w) (getProjectHistory w)
             (fun url => mkPromise (instant url) (outcome (fetch_head w url))).

(** The same upstream with another fetched collection of geometries. *)
Definition with_geometries {SSRConfig ProjectStatus Geometry History : Type}
    (w : Upstream SSRConfig ProjectStatus Geometry History)
    (geojsons : FeatureCollection.t (GeoFeature.t Geometry))
  : Upstream SSRConfig ProjectStatus Geometry History :=
  mkUpstream (serverSideTranslations w) (getProjectCentroids w)
             (fulfilled geojsons) (getProjectHistory w) (fetch_head w).

(** A page record with its geometry taken out. *)
Definition without_geometry {SSRConfig ProjectStatus Geometry History : Type}
    (props : Props.t SSRConfig ProjectStatus Geometry History)
  : Props.t SSRConfig ProjectStatus Geometry History :=
  Props.mk (Props.translations props) (Props.totalProgress props)
           (Props.totalArea props) (Props.totalContributors props)
           (Props.name props) (Props.description props) (Props.status props)
           None (Props.history props) (Props.urls props).

(** A page record with other probe results. *)
Definition with_urls {SSRConfig ProjectStatus Geometry History : Type}
    (props : Props.t SSRConfig ProjectStatus Geometry History)
    (urlResponses : list UrlInfo.t)
  : Props.t SSRConfig ProjectStatus Geometry History :=
  Props.mk (Props.translations props) (Props.totalProgress props)
           (Props.totalArea props) (Props.totalContributors props)
           (Props.name props) (Props.description props) (Props.status props)
           (Props.projectGeoJSON props) (Props.history props) urlResponses.

(** The outcome of a build, a function applied to the record if there is
    one. *)
Definition settled_map {A B : Type} (f : A -> B) (p : settled A) : settled B :=
  match p with
  | fulfilled a => fulfilled (f a)
  | rejected e => rejected e
  end.

(** Two upstreams serve the same data: the same translations, catalogue,
    geometries and history; only the answers to the probes may differ. *)
Definition same_snapshot {SSRConfig ProjectStatus Geometry History : Type}
    (w1 w2 : Upstream SSRConfig ProjectStatus Geometry History) : Prop :=
  (forall lng ns, serverSideTranslations w1 lng ns = serverSideTranslations w2 lng ns)
  /\ getProjectCentroids w1 = getProjectCentroids w2
  /\ getProjectGeometries w1 = getProjectGeometries w2
  /\ (forall id, getProjectHistory w1 id = getProjectHistory w2 id).

(** Two responses tell the same about an asset: the same [ok] flag and the
    same content-length header. *)
Definition same_answer (res1 res2 : Response.t) : Prop :=
  Response.ok res1 = Response.ok res2
  /\ Response.headers_get res1 "content-length"
     = Response.headers_get res2 "content-length".

(** ** A catalogue of two projects and an asset host *)

Module Example.

Definition project_one : Centroid.t string :=
  Centroid.mk
    (Properties.mk "p1" "Project One" "active"
       (value (Number "0.4567")) (value (Number "12.3")) (value (Number "7"))
       (with_frontmatter "title" "x" ("# Hello" ++ newline ++ "World"))).

Definition project_two : Centroid.t string :=
  Centroid.mk
    (Properties.mk "p2" "Project Two" "finished" null undefined null
       (with_frontmatter "title" "y" ("# Hello" ++ escaped_newline ++ "World"))).

Definition catalogue : FeatureCollection.t (Centroid.t string) :=
  FeatureCollection.mk [project_one; project_two].

(** Only the first project has a polygon. *)
Definition geometries : FeatureCollection.t (GeoFeature.t string) :=
  FeatureCollection.mk [GeoFeature.mk (GeoProperties.mk "p1") (value "polygon-p1")].

Definition header (content_length : option string) (name : string) : option string :=
  if String.eqb name "content-length" then content_length else None.

(** The host has the aggregated results of the first project; it answers
    for its history with an error page of 162 bytes, and for anything else
    with an error and no length. *)
Definition answer (url : string) : Response.t :=
  if String.eqb url "https://apps.mapswipe.org/api/agg_results/agg_results_p1.csv.gz"
  then Response.mk true (header (Some "1024"))
  else if String.eqb url "https://apps.mapswipe.org/api/history/history_p1.csv"
  then Response.mk false (header (Some "162"))
  else Response.mk false (header None).

(** A host that has nothing. *)
Definition answer_nothing (url : string) : Response.t :=
  Response.mk false (header None).

(** The longer the URL, the sooner its probe settles. *)
Definition instant (url : string) : nat := 200 - String.length url.

Definition upstream_with (fetch : string -> promise Response.t)
  : Upstream string string string string :=
  mkUpstream (fun lng _ => fulfilled ("bundle-" ++ to_template lng))
             (fulfilled catalogue) (fulfilled geometries)
             (fun id => fulfilled ("history-" ++ id))
             fetch.

Definition upstream : Upstream string string string string :=
  upstream_with (fun url => mkPromise (instant url) (fulfilled (answer url))).

Definition upstream_nothing : Upstream string string string string :=
  upstream_with (fun url => mkPromise 0 (fulfilled (answer_nothing url))).

(** The same, the request for the tasks of the first project failing on
    the network. *)
Definition upstream_network_error : Upstream string string string string :=
  upstream_with (fun url =>
    if String.eqb url "https://apps.mapswipe.org/api/tasks/tasks_p1.csv.gz"
    then mkPromise 0 (rejected (mkExn "TypeError" "fetch failed"))
    else mkPromise (instant url) (fulfilled (answer url))).

Definition context_for (id : string) : Context.t :=
  Context.mk (Some (Params.mk (param_string id) (param_string "en"))).

Definition rendered : string :=
  "<h1>Hello</h1>" ++ newline ++ "<p>World</p>" ++ newline.

Definition page (project : Centroid.t string) (geojson : nullable string)
    (host : string -> Response.t) : Props.t string string string string :=
  let id := Properties.project_id (Centroid.properties project) in
  assemble "bundle-en" project geojson ("history-" ++ id) rendered
    (map (fun url => urlInfo url (host (Url.url url))) (urls (param_string id))).

Definition page_one : Props.t string string string string :=
  page project_one (value "polygon-p1") answer.

Definition page_one_nothing : Props.t string string string string :=
  page project_one (value "polygon-p1") answer_nothing.

Definition page_two : Props.t string string string string :=
  page project_two undefined answer.

End Example.

(** ** The rendered pages *)

(** The geometries handed to a map anywhere in an element, in document
    order. *)
Fixpoint geoJSON_props {Geometry : Type} (e : element Geometry) : list Geometry :=
  match e with
  | host _ _ children => flat_map geoJSON_props children
  | component _ props children =>
      flat_map (fun p => match snd p with
                         | prop_geoJSON g => [g]
                         | prop_string _ => []
                         end) props
      ++ flat_map geoJSON_props children
  | text _ | nothing => []
  end.

(** The names of the components of an element, in document order. *)
Fixpoint components {Geometry : Type} (e : element Geometry) : list string :=
  match e with
  | host _ _ children => flat_map components children
  | component name _ children => name :: flat_map components children
  | text _ | nothing => []
  end.

(** A page record with another translation bundle. *)
Definition with_translations {SSRConfig ProjectStatus Geometry History : Type}
    (translations : SSRConfig)
    (props : Props.t SSRConfig ProjectStatus Geometry History)
  : Props.t SSRConfig ProjectStatus Geometry History :=
  Props.mk translations (Props.totalProgress props)
           (Props.totalArea props) (Props.totalContributors props)
           (Props.name props) (Props.description props) (Props.status props)
           (Props.projectGeoJSON props) (Props.history props) (Props.urls props).

(** The context of the build of a path. *)
Definition context_of (path : Path.t) : Context.t :=
  Context.mk (Some (Params.mk (param_string (Path.id path))
                              (param_string (Path.locale path)))).

(** The same upstream with other probes. *)
Definition with_fetch {SSRConfig ProjectStatus Geometry History : Type}
    (w : Upstream SSRConfig ProjectStatus Geometry History)
    (fetch : string -> promise Response.t)
  : Upstream SSRConfig ProjectStatus Geometry History :=
  mkUpstream (serverSideTranslations w) (getProjectCentroids w)
             (getProjectGeometries w) (getProjectHistory w) fetch.

(** ** A style sheet and translations for the examples *)

Module ExamplePage.

Definition styles : Styles.t :=
  Styles.mk "project" "statsSection" "content" "stats" "chartContainer"
            "overviewSection" "overviewContent" "description"
            "mapContainer" "projectsMap".

(** The class names that are there, separated by spaces. *)
Definition _cs (names : list (option string)) : string :=
  String.concat " " (flat_map (fun n => match n with
                                        | Some s => [s]
                                        | None => []
                                        end) names).

(** Every text is translated to its key. *)
Definition useTranslation (ns key : string)
    (options : list (string * interpolation string)) : string :=
  ns ++ ":" ++ key.

(** A catalogue in which the identifier of the first project comes twice,
    after the second project. *)
Definition project_shadowed : Centroid.t string :=
  Centroid.mk (Properties.mk "p1" "Shadowed" "draft" null null null "").

Definition upstream_duplicates : Upstream string string string string :=
  mkUpstream (fun lng _ => fulfilled ("bundle-" ++ to_template lng))
             (fulfilled (FeatureCollection.mk
                           [Example.project_two; Example.project_one; project_shadowed]))
             (fulfilled Example.geometries)
             (fun id => fulfilled ("history-" ++ id))
             (fun url => mkPromise (Example.instant url)
                                   (fulfilled (Example.answer url))).

(** The first geometry record of the first project has no geometry; a
    second record of the same identifier has one. *)
Definition geometries_null_first : FeatureCollection.t (GeoFeature.t string) :=
  FeatureCollection.mk [GeoFeature.mk (GeoProperties.mk "p1") null;
                        GeoFeature.mk (GeoProperties.mk "p1") (value "polygon-late")].

Definition upstream_null_geometry : Upstream string string string string :=
  mkUpstream (fun lng _ => fulfilled ("bundle-" ++ to_template lng))
             (fulfilled Example.catalogue) (fulfilled geometries_null_first)
             (fun id => fulfilled ("history-" ++ id))
             (fun url => mkPromise (Example.instant url)
                                   (fulfilled (Example.answer url))).

Definition page_one_unmapped : Props.t string string string string :=
  Example.page Example.project_one null Example.answer.

(** The history cannot be fetched. *)
Definition upstream_history_down : Upstream string string string string :=
  mkUpstream (fun lng _ => fulfilled ("bundle-" ++ to_template lng))
             (fulfilled Example.catalogue) (fulfilled Example.geometries)
             (fun id => rejected (mkExn "Error" "history unavailable"))
             (fun url => mkPromise (Example.instant url)
                                   (fulfilled (Example.answer url))).

(** Two requests fail, the one for the users before the one for the
    tasks. *)
Definition upstream_two_errors : Upstream string string string string :=
  Example.upstream_with (fun url =>
    if String.eqb url "https://apps.mapswipe.org/api/tasks/tasks_p1.csv.gz"
    then mkPromise 5 (rejected (mkExn "TypeError" "fetch failed"))
    else if String.eqb url "https://apps.mapswipe.org/api/users/users_p1.csv.gz"
    then mkPromise 2 (rejected (mkExn "TimeoutError" "timed out"))
    else mkPromise (Example.instant url) (fulfilled (Example.answer url))).

Definition context_in (lng id : string) : Context.t :=
  Context.mk (Some (Params.mk (param_string id) (param_string lng))).

Definition context_without_params : Context.t := Context.mk None.

End ExamplePage.

(** * Properties *)

(** ** Numbers *)

Section Numbers.

Local Open Scope Z_scope.

Lemma digits2_pos_bounds p :
  2 ^ (Zpos (digits2_pos p) - 1) <= Zpos p < 2 ^ Zpos (digits2_pos p).
Proof.
  induction p as [p IH | p IH |]; simpl digits2_pos.
  - rewrite Pos2Z.inj_succ, Z.pow_succ_r by lia.
    replace (Z.succ (Zpos (digits2_pos p)) - 1) with (Z.succ (Zpos (digits2_pos p) - 1)) by lia.
    rewrite Z.pow_succ_r by lia. lia.
  - rewrite Pos2Z.inj_succ, Z.pow_succ_r by lia.
    replace (Z.succ (Zpos (digits2_pos p)) - 1) with (Z.succ (Zpos (digits2_pos p) - 1)) by lia.
    rewrite Z.pow_succ_r by lia. lia.
  - simpl. lia.
Qed.

Lemma digits2_pos_iter_xO m n :
  digits2_pos (Pos.iter xO m n) = (digits2_pos m + n)%positive.
Proof.
  rewrite (Pos.iter_swap_gen _ _ digits2_pos xO Pos.succ) by reflexivity.
  induction n as [| n IH] using Pos.peano_ind.
  - simpl. lia.
  - rewrite Pos.iter_succ, IH. lia.
Qed.

Lemma Zpos_iter_xO m n : Zpos (Pos.iter xO m n) = Zpos m * 2 ^ Zpos n.
Proof.
  change (Pos.iter xO m n) with (shift_pos n m).
  rewrite shift_pos_correct. rewrite Z.mul_comm. reflexivity.
Qed.

Lemma binary_round_aux_exact s m e :
  Zpos (digits2_pos m) = 53 -> -1074 <= e <= 971 ->
  binary_round_aux prec emax s (Zpos m) e loc_Exact = S754_finite s m e.
Proof.
  intros Hd He.
  assert (Hs : shr_fexp prec emax (Zpos m) e loc_Exact
               = (Build_shr_record (Zpos m) false false, e)).
  { unfold shr_fexp. change (Zdigits2 (Zpos m)) with (Zpos (digits2_pos m)).
    rewrite Hd.
    replace (fexp prec emax (53 + e) - e) with 0
      by (unfold fexp, emin, prec, emax; lia).
    reflexivity. }
  unfold binary_round_aux. rewrite Hs. cbn [shr_m loc_of_shr_record round_nearest_even].
  rewrite Hs. cbn [shr_m].
  destruct (e <=? emax - prec) eqn:L; [reflexivity |].
  apply Z.leb_gt in L. unfold emax, prec in L. lia.
Qed.

(** A mantissa of at most 53 bits at exponent 0 is normalised without
    rounding. *)
Lemma binary_round_exact s (p : positive) :
  Zpos (digits2_pos p) <= 53 ->
  exists m e, binary_round prec emax s p 0 = S754_finite s m e
              /\ e <= 0 /\ Zpos m = Zpos p * 2 ^ (- e).
Proof.
  intros Hd. unfold binary_round, shl_align.
  set (d := Zpos (digits2_pos p)) in *.
  assert (Hd0 : 0 < d) by (unfold d; lia).
  replace (fexp prec emax (d + 0)) with (d - 53)
    by (unfold fexp, emin, prec, emax; lia).
  destruct (d - 53 - 0) as [| q | q] eqn:E; try lia.
  - exists p, 0. split; [| split; [lia | simpl; lia]].
    apply binary_round_aux_exact; [fold d |]; lia.
  - exists (Pos.iter xO p q), (d - 53).
    split; [| split; [lia | rewrite Zpos_iter_xO; f_equal; f_equal; lia]].
    apply binary_round_aux_exact; [| lia].
    rewrite digits2_pos_iter_xO, Pos2Z.inj_add. fold d. lia.
Qed.

Lemma Zpos_to_pos_pow2 n : 0 <= n -> Zpos (Z.to_pos (2 ^ n)) = 2 ^ n.
Proof. intros H. apply Z2Pos.id. apply Z.pow_pos_nonneg; lia. Qed.

Lemma of_Z_value k :
  k <> 0 -> Z.abs k <= 2 ^ 52 -> has_value (of_Z k) (inject_Z k).
Proof.
  intros Hk Hb. unfold of_Z, binary_normalize.
  assert (D : forall p, Zpos p <= 2 ^ 52 -> Zpos (digits2_pos p) <= 53).
  { intros p Hp. pose proof (digits2_pos_bounds p) as [Hlo _].
    destruct (Z_le_gt_dec (Zpos (digits2_pos p)) 53) as [| G]; [assumption |].
    assert (2 ^ 53 <= 2 ^ (Zpos (digits2_pos p) - 1)) by (apply Z.pow_le_mono_r; lia).
    change (2 ^ 52) with 4503599627370496 in Hp.
    change (2 ^ 53) with 9007199254740992 in H. lia. }
  assert (V : forall s p, Zpos p <= 2 ^ 52 ->
              has_value (binary_round prec emax s p 0) (inject_Z (signed s p))).
  { intros s p Hp.
    destruct (binary_round_exact s p (D p Hp)) as (m & e & -> & He & Hm).
    unfold has_value, to_Q. eexists. split; [reflexivity |].
    destruct (0 <=? e) eqn:L.
    - apply Z.leb_le in L. assert (e = 0) by lia. subst e.
      simpl in Hm. unfold signed, cond_Zopp in *.
      destruct s; unfold Qeq; simpl; lia.
    - unfold Qeq. cbn [Qnum Qden inject_Z].
      rewrite Zpos_to_pos_pow2 by lia.
      unfold signed, cond_Zopp. destruct s; lia. }
  destruct k as [| p | p]; [congruence | |].
  - apply (V false p). lia.
  - apply (V true p). lia.
Qed.

Lemma round_half_up_spec s m e :
  e < 0 ->
  let k := round_half_up s m e in
  2 ^ (- e) * (2 * k - 1) <= 2 * signed s m < 2 ^ (- e) * (2 * k + 1).
Proof.
  intros He k. subst k. unfold round_half_up.
  replace (- e + 1) with (Z.succ (- e)) by lia.
  rewrite Z.pow_succ_r by lia.
  assert (P : 0 < 2 ^ (- e)) by (apply Z.pow_pos_nonneg; lia).
  set (D := 2 ^ (- e)) in *. set (n := 2 * signed s m + D).
  pose proof (Z.div_mod n (2 * D) ltac:(lia)) as E.
  pose proof (Z.mod_pos_bound n (2 * D) ltac:(lia)) as B.
  subst n. nia.
Qed.

Lemma valid_binary_digits s m e :
  valid_binary prec emax (S754_finite s m e) = true -> Zpos (digits2_pos m) <= 53.
Proof.
  simpl. unfold bounded, canonical_mantissa, fexp, emin, prec, emax.
  intros H. apply andb_prop in H. destruct H as [H _].
  apply Z.eqb_eq in H. lia.
Qed.

(** [Math.round] of a finite Number is an integer within one half of it,
    the upper one on a tie. *)
Lemma Math_round_nearest x q :
  valid_binary prec emax x = true -> has_value x q ->
  exists k : Z,
    has_value (Math_round x) (inject_Z k)
    /\ (inject_Z k - (1 # 2) <= q)%Q /\ (q < inject_Z k + (1 # 2))%Q.
Proof.
  intros V (q' & Hq & E).
  destruct x as [s | s | | s m e]; simpl in Hq; try discriminate.
  - injection Hq as <-. exists 0. split.
    + exists 0%Q. split; [reflexivity | reflexivity].
    + rewrite <- E. split; unfold Qle, Qlt; simpl; lia.
  - injection Hq as <-. unfold Math_round.
    destruct (0 <=? e) eqn:L.
    + exists (signed s m * 2 ^ e). split.
      * eexists. split; [simpl; rewrite L; reflexivity | reflexivity].
      * rewrite <- E. unfold Qle, Qlt, Qminus, Qplus, Qopp; simpl; lia.
    + apply Z.leb_gt in L.
      pose proof (round_half_up_spec s m e L) as R. cbv zeta in R.
      assert (P : 0 < 2 ^ (- e)) by (apply Z.pow_pos_nonneg; lia).
      exists (round_half_up s m e). split.
      * destruct (round_half_up s m e) as [| p | p] eqn:K.
        -- exists 0%Q. split; reflexivity.
        -- rewrite <- K. apply of_Z_value; [lia |].
           pose proof (valid_binary_digits _ _ _ V) as Hd.
           pose proof (digits2_pos_bounds m) as [_ Hm].
           assert (2 ^ Zpos (digits2_pos m) <= 2 ^ 53) by (apply Z.pow_le_mono_r; lia).
           assert (2 <= 2 ^ (- e)) by (change 2 with (2 ^ 1) at 1; apply Z.pow_le_mono_r; lia).
           change (2 ^ 53) with 9007199254740992 in *.
           change (2 ^ 52) with 4503599627370496.
           unfold signed, cond_Zopp in R. destruct s; nia.
        -- rewrite <- K. apply of_Z_value; [lia |].
           pose proof (valid_binary_digits _ _ _ V) as Hd.
           pose proof (digits2_pos_bounds m) as [_ Hm].
           assert (2 ^ Zpos (digits2_pos m) <= 2 ^ 53) by (apply Z.pow_le_mono_r; lia).
           assert (2 <= 2 ^ (- e)) by (change 2 with (2 ^ 1) at 1; apply Z.pow_le_mono_r; lia).
           change (2 ^ 53) with 9007199254740992 in *.
           change (2 ^ 52) with 4503599627370496.
           unfold signed, cond_Zopp in R. destruct s; nia.
      * rewrite <- E. unfold Qle, Qlt, Qminus, Qplus, Qopp.
        cbn [Qnum Qden inject_Z]. rewrite Zpos_to_pos_pow2 by lia.
        change (Zpos (1 * 2)) with 2. nia.
Qed.

Lemma Math_round_of_finite x :
  is_finite x = true -> nearest_integer_of x (Math_round x).
Proof.
  intros F.
  assert (V : valid_binary prec emax x = true).
  { destruct x; try discriminate; [reflexivity | exact F]. }
  assert (Q : exists q, to_Q x = Some q).
  { destruct x; try discriminate; simpl; eauto. }
  destruct Q as [q Hq].
  assert (H : has_value x q) by (exists q; split; [exact Hq | reflexivity]).
  destruct (Math_round_nearest x q V H) as (k & Hk & Hlo & Hhi).
  exists q, k. repeat split; assumption.
Qed.

End Numbers.

(** ** Numeric strings *)

Section Scanning.

Local Open Scope list_scope.
Variable p : ascii -> bool.

Lemma take_drop_while cs : take_while p cs ++ drop_while p cs = cs.
Proof.
  induction cs as [| c cs IH]; simpl; [reflexivity |].
  destruct (p c); simpl; [rewrite IH |]; reflexivity.
Qed.

Lemma Forall_take_while cs : Forall (fun c => p c = true) (take_while p cs).
Proof.
  induction cs as [| c cs IH]; simpl; [constructor |].
  destruct (p c) eqn:E; constructor; assumption.
Qed.

Lemma forallb_Forall cs : forallb p cs = true -> Forall (fun c => p c = true) cs.
Proof. intros H. apply Forall_forall. apply forallb_forall. exact H. Qed.

End Scanning.

Section NumericStrings.

Local Open Scope list_scope.

Lemma trim_decompose cs :
  exists ws1 ws2, StrWhiteSpace ws1 /\ StrWhiteSpace ws2 /\ cs = ws1 ++ trim cs ++ ws2.
Proof.
  exists (take_while is_whitespace cs),
         (rev (take_while is_whitespace (rev (drop_while is_whitespace cs)))).
  split; [apply Forall_take_while |]. split.
  - apply Forall_rev. apply Forall_take_while.
  - unfold trim. rewrite <- rev_app_distr, take_drop_while, rev_involutive.
    symmetry. apply take_drop_while.
Qed.

Lemma chars_eqb a b : eqb_chars a b = true -> a = b.
Proof.
  unfold eqb_chars. intros H. apply String.eqb_eq in H.
  rewrite <- (list_ascii_of_string_of_list_ascii a),
          <- (list_ascii_of_string_of_list_ascii b), H.
  reflexivity.
Qed.

Lemma exponent_part_sound cs ex :
  exponent_part cs = Some ex -> opt ExponentPart cs.
Proof.
  unfold exponent_part. destruct cs as [| c rest]; [left; reflexivity |].
  intros H. right.
  assert (S : forall neg ds,
            match ds with
            | [] => None
            | _ :: _ => if forallb is_digit ds
                        then Some (cond_Zopp neg (Z.of_N (digits_value 10 ds)))
                        else None
            end = Some ex -> DecimalDigits ds).
  { intros neg [| d ds] E; [discriminate |].
    destruct (forallb is_digit (d :: ds)) eqn:F; [| discriminate].
    split; [discriminate | apply forallb_Forall; exact F]. }
  assert (SI : SignedInteger rest).
  { destruct (Ascii.eqb c "e" || Ascii.eqb c "E"); [| discriminate].
    destruct rest as [| s ds']; [discriminate |].
    destruct (Ascii.eqb s "+") eqn:Ep.
    - apply Ascii.eqb_eq in Ep. subst s. apply SignedInteger_plus. eapply S, H.
    - destruct (Ascii.eqb s "-") eqn:Em.
      + apply Ascii.eqb_eq in Em. subst s. apply SignedInteger_minus. eapply S, H.
      + apply SignedInteger_digits. eapply S, H. }
  destruct (Ascii.eqb c "e") eqn:E1.
  - apply Ascii.eqb_eq in E1. subst c. constructor. exact SI.
  - destruct (Ascii.eqb c "E") eqn:E2; [| discriminate].
    apply Ascii.eqb_eq in E2. subst c. constructor. exact SI.
Qed.

Lemma DecimalDigits_take_while cs :
  take_while is_digit cs <> [] -> DecimalDigits (take_while is_digit cs).
Proof. intros H. split; [exact H | apply Forall_take_while]. Qed.

Lemma unsigned_decimal_sound neg cs :
  unsigned_decimal neg cs <> NaN -> StrUnsignedDecimalLiteral cs.
Proof.
  unfold unsigned_decimal.
  destruct (eqb_chars cs (chars "Infinity")) eqn:I.
  { intros _. apply chars_eqb in I. subst cs. constructor. }
  pose proof (take_drop_while is_digit cs) as Hcs.
  set (ip := take_while is_digit cs) in *.
  set (r1 := drop_while is_digit cs) in *.
  assert (Hip : ip <> [] -> DecimalDigits ip) by apply DecimalDigits_take_while.
  destruct r1 as [| d r] eqn:R1.
  - rewrite app_nil_r. destruct ip as [| i ip'] eqn:Eip; [congruence |].
    intros _. rewrite <- Hcs.
    apply Unsigned_int; [apply Hip; discriminate | left; reflexivity].
  - destruct (Ascii.eqb d ".") eqn:Dot.
    + apply Ascii.eqb_eq in Dot. subst d.
      pose proof (take_drop_while is_digit r) as Hr.
      set (fp := take_while is_digit r) in *.
      set (r2 := drop_while is_digit r) in *.
      assert (Hfp : fp <> [] -> DecimalDigits fp) by apply DecimalDigits_take_while.
      destruct (ip ++ fp) as [| a l] eqn:Eif; [congruence |].
      destruct (exponent_part r2) as [ex |] eqn:Ex; [| congruence].
      intros _. apply exponent_part_sound in Ex.
      rewrite <- Hcs, <- Hr.
      destruct ip as [| i ip'].
      * simpl in Eif. simpl. apply Unsigned_dot; [apply Hfp; congruence | exact Ex].
      * apply Unsigned_int_dot; [apply Hip; discriminate | | exact Ex].
        destruct fp as [| f fp']; [left; reflexivity | right; apply Hfp; discriminate].
    + rewrite app_nil_r. destruct ip as [| i ip'] eqn:Eip; [congruence |].
      destruct (exponent_part (d :: r)) as [ex |] eqn:Ex; [| congruence].
      intros _. apply exponent_part_sound in Ex. rewrite <- Hcs.
      apply Unsigned_int; [apply Hip; discriminate | exact Ex].
Qed.

Lemma decimal_literal_sound cs :
  decimal_literal cs <> NaN -> StrDecimalLiteral cs.
Proof.
  unfold decimal_literal. destruct cs as [| s rest].
  - intros H. apply Decimal_unsigned. eapply unsigned_decimal_sound, H.
  - destruct (Ascii.eqb s "+") eqn:Ep.
    + apply Ascii.eqb_eq in Ep. subst s. intros H.
      apply Decimal_plus. eapply unsigned_decimal_sound, H.
    + destruct (Ascii.eqb s "-") eqn:Em.
      * apply Ascii.eqb_eq in Em. subst s. intros H.
        apply Decimal_minus. eapply unsigned_decimal_sound, H.
      * intros H. apply Decimal_unsigned. eapply unsigned_decimal_sound, H.
Qed.

(** A string that [StringToNumber] does not turn into NaN is a
    [StringNumericLiteral]. *)
Lemma StringToNumber_sound cs :
  StringToNumber cs <> NaN -> StringNumericLiteral cs.
Proof.
  unfold StringToNumber.
  destruct (trim_decompose cs) as (ws1 & ws2 & W1 & W2 & E).
  destruct (trim cs) as [| z [| c ds]] eqn:T.
  - intros _. rewrite E. simpl. apply String_blank.
    apply Forall_app. split; assumption.
  - intros H. rewrite E. apply String_literal; try assumption.
    apply Numeric_decimal. apply decimal_literal_sound. exact H.
  - intros H. rewrite E. apply String_literal; try assumption.
    destruct (Ascii.eqb z "0") eqn:Z0.
    + destruct (radix_of c) as [radix |] eqn:R.
      * apply Ascii.eqb_eq in Z0. subst z.
        destruct ds as [| d ds']; [congruence |].
        destruct (forallb (is_digit_of radix) (d :: ds')) eqn:F; [| congruence].
        apply Numeric_non_decimal. econstructor; [exact R | discriminate |].
        apply forallb_Forall. exact F.
      * apply Numeric_decimal. apply decimal_literal_sound. exact H.
    + apply Numeric_decimal. apply decimal_literal_sound. exact H.
Qed.

Lemma double_eq_NaN_dec (x : double) : {x = NaN} + {x <> NaN}.
Proof. destruct x; (left; reflexivity) || (right; discriminate). Qed.

End NumericStrings.

(** ** Numbers that are never NaN *)

Section NeverNaN.

Local Open Scope Z_scope.

Lemma iter_pos_invariant {A : Type} (P : A -> Prop) (f : A -> A) :
  (forall x, P x -> P (f x)) -> forall p x, P x -> P (iter_pos f p x).
Proof.
  intros Hf. induction p as [p IH | p IH |]; intros x Hx; simpl.
  - apply IH, IH, Hf, Hx.
  - apply IH, IH, Hx.
  - apply Hf, Hx.
Qed.

Lemma shr_1_nonneg mrs : 0 <= shr_m mrs -> 0 <= shr_m (shr_1 mrs).
Proof.
  destruct mrs as [m r s]. simpl.
  destruct m as [| [p | p |] | p]; simpl; lia.
Qed.

Lemma shr_fexp_nonneg m e l :
  0 <= m -> 0 <= shr_m (fst (shr_fexp prec emax m e l)).
Proof.
  intros Hm. unfold shr_fexp, shr.
  assert (H0 : 0 <= shr_m (shr_record_of_loc m l)) by (destruct l as [| []]; exact Hm).
  destruct (fexp prec emax (Zdigits2 m + e) - e) as [| p | p]; simpl; try exact H0.
  apply iter_pos_invariant; [apply shr_1_nonneg | exact H0].
Qed.

Lemma round_nearest_even_nonneg m l : 0 <= m -> 0 <= round_nearest_even m l.
Proof.
  intros Hm. unfold round_nearest_even.
  destruct l as [| []]; try destruct (Z.even m); lia.
Qed.

Lemma binary_round_aux_not_nan sx mx ex lx :
  0 <= mx -> binary_round_aux prec emax sx mx ex lx <> S754_nan.
Proof.
  intros Hm. unfold binary_round_aux.
  pose proof (shr_fexp_nonneg mx ex lx Hm) as H1.
  destruct (shr_fexp prec emax mx ex lx) as [mrs' e']. simpl in H1.
  pose proof (shr_fexp_nonneg _ e' loc_Exact
                (round_nearest_even_nonneg _ (loc_of_shr_record mrs') H1)) as H2.
  destruct (shr_fexp prec emax _ e' loc_Exact) as [mrs'' e'']. simpl in H2.
  destruct (shr_m mrs'') as [| m | m]; [discriminate | | lia].
  destruct (e'' <=? emax - prec); discriminate.
Qed.

Lemma binary_round_not_nan sx mx ex : binary_round prec emax sx mx ex <> S754_nan.
Proof.
  unfold binary_round.
  destruct (shl_align mx ex _) as [mz ez].
  apply binary_round_aux_not_nan. lia.
Qed.

Lemma of_Z_not_NaN k : of_Z k <> NaN.
Proof.
  unfold of_Z, binary_normalize.
  destruct k; [discriminate | apply binary_round_not_nan ..].
Qed.

Lemma of_decimal_not_NaN neg m e : of_decimal neg m e <> NaN.
Proof.
  unfold of_decimal. destruct m as [| p]; [discriminate |].
  destruct (0 <=? e); [apply binary_round_not_nan |].
  unfold SFdiv, SFdiv_core_binary.
  set (m' := match _ with Zpos _ => _ | Z0 => _ | Zneg _ => _ end).
  assert (Hm : 0 <= m').
  { subst m'. destruct (_ - _ - _); [lia | | lia].
    apply Z.shiftl_nonneg. lia. }
  pose proof (Z_div_mod m' (Zpos (Z.to_pos (10 ^ (- e)))) eq_refl) as D.
  destruct (Z.div_eucl m' _) as [q r].
  apply binary_round_aux_not_nan.
  destruct D as [D1 D2]. nia.
Qed.

End NeverNaN.

(** ** Strings of digits *)

Section DecimalStrings.

Local Open Scope list_scope.

Lemma digit_not_whitespace c : is_digit c = true -> is_whitespace c = false.
Proof.
  unfold is_digit, is_whitespace. intros H.
  apply andb_prop in H. destruct H as [H1 H2].
  apply N.leb_le in H1, H2.
  destruct (N.leb_spec 9 (code c)), (N.leb_spec (code c) 13),
           (N.eqb_spec (code c) 32), (N.eqb_spec (code c) 160); simpl; try reflexivity; lia.
Qed.

Lemma digit_code c : is_digit c = true -> (48 <= code c <= 57)%N.
Proof.
  unfold is_digit. intros H. apply andb_prop in H. destruct H as [H1 H2].
  apply N.leb_le in H1, H2. lia.
Qed.

Lemma digit_neq c (d : ascii) :
  is_digit c = true -> is_digit d = false -> Ascii.eqb c d = false.
Proof.
  intros Hc Hd. destruct (Ascii.eqb c d) eqn:E; [| reflexivity].
  apply Ascii.eqb_eq in E. congruence.
Qed.

Lemma drop_while_head (p : ascii -> bool) c cs :
  p c = false -> drop_while p (c :: cs) = c :: cs.
Proof. intros H. simpl. rewrite H. reflexivity. Qed.

Lemma trim_digits ds : forallb is_digit ds = true -> trim ds = ds.
Proof.
  intros H. unfold trim.
  assert (D : forall l, forallb is_digit l = true -> drop_while is_whitespace l = l).
  { intros [| c l] Hl; [reflexivity |].
    simpl in Hl. apply andb_prop in Hl. destruct Hl as [Hc _].
    apply drop_while_head, digit_not_whitespace, Hc. }
  rewrite (D ds H), D, rev_involutive; [reflexivity |].
  apply forallb_forall. intros x Hx. apply in_rev in Hx.
  revert x Hx. apply forallb_forall. exact H.
Qed.

Lemma take_while_all (p : ascii -> bool) cs :
  forallb p cs = true -> take_while p cs = cs /\ drop_while p cs = [].
Proof.
  induction cs as [| c cs IH]; simpl; [split; reflexivity |].
  intros H. apply andb_prop in H. destruct H as [Hc Hs].
  rewrite Hc. destruct (IH Hs) as [-> ->]. split; reflexivity.
Qed.

Lemma radix_of_digit c : is_digit c = true -> radix_of c = None.
Proof.
  intros H. unfold radix_of.
  rewrite (digit_neq c "x" H eq_refl), (digit_neq c "X" H eq_refl),
          (digit_neq c "o" H eq_refl), (digit_neq c "O" H eq_refl),
          (digit_neq c "b" H eq_refl), (digit_neq c "B" H eq_refl).
  reflexivity.
Qed.

(** [Number] of a string of decimal digits is the Number of the integer
    they denote. *)
Lemma StringToNumber_digits ds :
  ds <> [] -> forallb is_digit ds = true ->
  StringToNumber ds = of_decimal false (digits_value 10 ds) 0.
Proof.
  intros Hne H. unfold StringToNumber. rewrite (trim_digits ds H).
  assert (U : unsigned_decimal false ds = of_decimal false (digits_value 10 ds) 0).
  { unfold unsigned_decimal.
    destruct ds as [| d ds']; [congruence |].
    assert (Hd : is_digit d = true) by (simpl in H; apply andb_prop in H; tauto).
    assert (I : eqb_chars (d :: ds') (chars "Infinity") = false).
    { unfold eqb_chars. cbn [string_of_list_ascii chars list_ascii_of_string String.eqb].
      rewrite (digit_neq d "I" Hd eq_refl). reflexivity. }
    rewrite I. destruct (take_while_all is_digit (d :: ds') H) as [-> ->].
    rewrite app_nil_r. cbn [exponent_part List.length Z.of_nat Z.sub]. reflexivity. }
  assert (Dl : decimal_literal ds = unsigned_decimal false ds).
  { unfold decimal_literal. destruct ds as [| d ds']; [reflexivity |].
    assert (Hd : is_digit d = true) by (simpl in H; apply andb_prop in H; tauto).
    rewrite (digit_neq d "+" Hd eq_refl), (digit_neq d "-" Hd eq_refl).
    reflexivity. }
  destruct ds as [| z [| c rest]]; [congruence | |].
  - rewrite Dl. exact U.
  - assert (Hc : is_digit c = true).
    { simpl in H. apply andb_prop in H. destruct H as [_ H].
      apply andb_prop in H. tauto. }
    rewrite (radix_of_digit c Hc).
    destruct (Ascii.eqb z "0"); rewrite Dl; exact U.
Qed.

Lemma of_decimal_exact (n : N) :
  (Z.of_N n < 2 ^ 53)%Z -> has_value (of_decimal false n 0) (inject_Z (Z.of_N n)).
Proof.
  intros Hb. destruct n as [| p]; simpl of_decimal.
  - exists 0%Q. split; reflexivity.
  - change (Z.to_pos 1) with 1%positive. rewrite Pos.mul_1_r.
    assert (Hd : (Zpos (digits2_pos p) <= 53)%Z).
    { pose proof (digits2_pos_bounds p) as [Hlo _].
      destruct (Z_le_gt_dec (Zpos (digits2_pos p)) 53) as [| G]; [assumption |].
      assert (2 ^ 53 <= 2 ^ (Zpos (digits2_pos p) - 1))%Z
        by (apply Z.pow_le_mono_r; lia).
      simpl Z.of_N in Hb. lia. }
    destruct (binary_round_exact false p Hd) as (m & e & -> & He & Hm).
    unfold has_value, to_Q. eexists. split; [reflexivity |].
    destruct (0 <=? e)%Z eqn:L.
    + apply Z.leb_le in L. assert (e = 0%Z) by lia. subst e.
      simpl in Hm. unfold signed, cond_Zopp. unfold Qeq; simpl. lia.
    + unfold Qeq. cbn [Qnum Qden inject_Z Z.of_N].
      rewrite Zpos_to_pos_pow2 by lia.
      unfold signed, cond_Zopp. lia.
Qed.

Lemma of_decimal_integer (n : N) : of_decimal false n 0 = of_Z (Z.of_N n).
Proof.
  destruct n as [| p]; [reflexivity |].
  unfold of_decimal, of_Z, binary_normalize. cbn [Z.of_N Z.leb Z.compare].
  change (Z.to_pos (10 ^ 0)) with 1%positive. rewrite Pos.mul_1_r. reflexivity.
Qed.

End DecimalStrings.

(** ** Numeric strings are read *)

Section NumericStringsRead.

Local Open Scope char_scope.
Local Open Scope list_scope.

Lemma take_drop_while_app (p : ascii -> bool) ds rest :
  Forall (fun c => p c = true) ds -> starts_without p rest ->
  take_while p (ds ++ rest) = ds /\ drop_while p (ds ++ rest) = rest.
Proof.
  intros Hd Hr. induction Hd as [| d ds Hp _ IH]; simpl.
  - destruct rest as [| c rest]; [split; reflexivity |].
    simpl in Hr |- *. rewrite Hr. split; reflexivity.
  - rewrite Hp. destruct IH as [-> ->]. split; reflexivity.
Qed.

Lemma Forall_forallb (p : ascii -> bool) cs :
  Forall (fun c => p c = true) cs -> forallb p cs = true.
Proof. intros H. apply forallb_forall. apply Forall_forall. exact H. Qed.

Lemma digits_are_read neg ds :
  DecimalDigits ds ->
  match ds with
  | [] => None
  | _ :: _ => if forallb is_digit ds
              then Some (cond_Zopp neg (Z.of_N (digits_value 10 ds)))
              else None
  end = Some (cond_Zopp neg (Z.of_N (digits_value 10 ds))).
Proof.
  intros [Hne Hd]. destruct ds as [| d ds]; [congruence |].
  rewrite (Forall_forallb _ _ Hd). reflexivity.
Qed.

Lemma exponent_part_complete ex :
  opt ExponentPart ex -> exists z, exponent_part ex = Some z.
Proof.
  intros [-> | H]; [exists 0%Z; reflexivity |].
  assert (S : forall c si, Ascii.eqb c "e" || Ascii.eqb c "E" = true ->
                SignedInteger si -> exists z, exponent_part (c :: si) = Some z).
  { intros c si Hc Hsi. unfold exponent_part. rewrite Hc.
    destruct Hsi as [ds D | ds D | ds D].
    - destruct ds as [| d ds'] eqn:E; [destruct D; congruence |].
      assert (Hd : is_digit d = true) by (destruct D as [_ D]; inversion D; assumption).
      rewrite (digit_neq d "+" Hd eq_refl), (digit_neq d "-" Hd eq_refl).
      eexists. exact (digits_are_read false _ D).
    - change (Ascii.eqb "+" "+") with true. cbv iota.
      eexists. exact (digits_are_read false _ D).
    - change (Ascii.eqb "-" "+") with false. change (Ascii.eqb "-" "-") with true.
      cbv iota. eexists. exact (digits_are_read true _ D). }
  destruct H as [si Hsi | si Hsi]; apply S; try exact Hsi; reflexivity.
Qed.

Lemma exponent_part_head ex :
  opt ExponentPart ex ->
  starts_without is_digit ex /\ starts_without (fun c => Ascii.eqb c ".") ex.
Proof.
  intros [-> | [si _ | si _]]; split; first [exact I | reflexivity].
Qed.

Lemma unsigned_decimal_complete neg cs :
  StrUnsignedDecimalLiteral cs -> unsigned_decimal neg cs <> NaN.
Proof.
  intros H. unfold unsigned_decimal.
  destruct H as [| ip fp ex [Hne Hip] Hfp Hex | fp ex [Hne Hfp] Hex | ip ex [Hne Hip] Hex];
    (destruct (eqb_chars _ (chars "Infinity")) eqn:Inf; [discriminate |]).
  - discriminate Inf.
  - destruct (take_drop_while_app is_digit ip ("." :: fp ++ ex) Hip eq_refl) as [-> ->].
    change (Ascii.eqb "." ".") with true. cbv iota.
    assert (Ffp : Forall (fun c => is_digit c = true) fp).
    { destruct Hfp as [-> | [_ F]]; [constructor | exact F]. }
    destruct (exponent_part_head ex Hex) as [Hd _].
    destruct (take_drop_while_app is_digit fp ex Ffp Hd) as [-> ->].
    destruct (exponent_part_complete ex Hex) as [z ->].
    destruct ip as [| i ip']; [congruence |].
    simpl app. apply of_decimal_not_NaN.
  - cbn [take_while drop_while]. change (is_digit ".") with false. cbv iota.
    change (Ascii.eqb "." ".") with true. cbv iota.
    destruct (exponent_part_head ex Hex) as [Hd _].
    destruct (take_drop_while_app is_digit fp ex Hfp Hd) as [-> ->].
    destruct (exponent_part_complete ex Hex) as [z ->].
    destruct fp as [| f fp']; [congruence |].
    simpl app. apply of_decimal_not_NaN.
  - destruct (exponent_part_head ex Hex) as [Hd Hdot].
    destruct (take_drop_while_app is_digit ip ex Hip Hd) as [-> ->].
    destruct (exponent_part_complete ex Hex) as [z Hz].
    assert (E : (let '(fp, r2) :=
                   match ex with
                   | [] => ([], ex)
                   | d :: r => if Ascii.eqb d "."
                               then (take_while is_digit r, drop_while is_digit r)
                               else ([], ex)
                   end in
                 match ip ++ fp with
                 | [] => NaN
                 | _ :: _ =>
                     match exponent_part r2 with
                     | Some ex0 => of_decimal neg (digits_value 10 (ip ++ fp))
                                              (ex0 - Z.of_nat (List.length fp))
                     | None => NaN
                     end
                 end)
                = of_decimal neg (digits_value 10 (ip ++ [])) (z - 0)).
    { destruct ex as [| d r].
      - rewrite Hz. destruct ip; [congruence | reflexivity].
      - simpl in Hdot. rewrite Hdot, Hz. destruct ip; [congruence | reflexivity]. }
    rewrite E. apply of_decimal_not_NaN.
Qed.

Lemma unsigned_decimal_head cs :
  StrUnsignedDecimalLiteral cs ->
  exists c rest, cs = c :: rest
                 /\ Ascii.eqb c "+" = false /\ Ascii.eqb c "-" = false.
Proof.
  intros [| ip fp ex [Hne Hip] _ _ | fp ex _ _ | ip ex [Hne Hip] _].
  - eexists _, _. split; [reflexivity | split; reflexivity].
  - destruct Hip as [| i ip' Hi _]; [congruence |].
    eexists _, _. split; [reflexivity |].
    split; apply digit_neq; try exact Hi; reflexivity.
  - eexists _, _. split; [reflexivity | split; reflexivity].
  - destruct Hip as [| i ip' Hi _]; [congruence |].
    eexists _, _. split; [reflexivity |].
    split; apply digit_neq; try exact Hi; reflexivity.
Qed.

Lemma decimal_literal_complete cs :
  StrDecimalLiteral cs -> decimal_literal cs <> NaN.
Proof.
  intros [cs' H | cs' H | cs' H].
  - destruct (unsigned_decimal_head cs' H) as (c & rest & -> & Hp & Hm).
    unfold decimal_literal. rewrite Hp, Hm.
    apply unsigned_decimal_complete. exact H.
  - apply (unsigned_decimal_complete false). exact H.
  - apply (unsigned_decimal_complete true). exact H.
Qed.

(** No decimal literal begins like a literal in another radix. *)
Lemma decimal_literal_radix cs :
  StrDecimalLiteral cs ->
  match cs with
  | z :: c :: _ => Ascii.eqb z "0" = true -> radix_of c = None
  | _ => True
  end.
Proof.
  assert (D : forall ds rest,
             DecimalDigits ds ->
             (rest = [] \/ exists r t, rest = r :: t /\ radix_of r = None) ->
             match (ds ++ rest) with
             | z :: c :: _ => Ascii.eqb z "0" = true -> radix_of c = None
             | _ => True
             end).
  { intros ds rest [Hne Hd] Hr.
    destruct Hd as [| d ds Hd Hds]; [congruence |]. simpl.
    destruct Hds as [| d2 ds Hd2 _]; simpl.
    - destruct Hr as [-> | (r & t & -> & Hr)]; [exact I |]. intros _. exact Hr.
    - intros _. apply radix_of_digit. exact Hd2. }
  assert (X : forall ex, opt ExponentPart ex ->
                ex = [] \/ exists r t, ex = r :: t /\ radix_of r = None).
  { intros ex [-> | [si _ | si _]]; [left; reflexivity | right ..];
      eexists _, _; split; reflexivity. }
  assert (U : forall cs', StrUnsignedDecimalLiteral cs' ->
                match cs' with
                | z :: c :: _ => Ascii.eqb z "0" = true -> radix_of c = None
                | _ => True
                end).
  { intros cs' [| ip fp ex Hip _ _ | fp ex _ _ | ip ex Hip Hex].
    - simpl. discriminate.
    - apply (D ip _ Hip). right. eexists _, _. split; reflexivity.
    - simpl. destruct (fp ++ ex); [exact I | discriminate].
    - apply (D ip _ Hip). apply X, Hex. }
  intros [cs' H | cs' H | cs' H].
  - apply U, H.
  - destruct cs'; [exact I | discriminate].
  - destruct cs'; [exact I | discriminate].
Qed.

Lemma digit_of_not_whitespace radix c :
  is_digit_of radix c = true -> is_whitespace c = false.
Proof.
  unfold is_digit_of, digit_of, is_whitespace. intros H.
  destruct (N.leb_spec 48 (code c)), (N.leb_spec (code c) 57),
           (N.leb_spec 97 (code c)), (N.leb_spec (code c) 102),
           (N.leb_spec 65 (code c)), (N.leb_spec (code c) 70);
    simpl in H; try discriminate;
    destruct (N.leb_spec 9 (code c)), (N.leb_spec (code c) 13),
             (N.eqb_spec (code c) 32), (N.eqb_spec (code c) 160);
    simpl; try reflexivity; lia.
Qed.

Lemma radix_of_not_whitespace c radix :
  radix_of c = Some radix -> is_whitespace c = false.
Proof.
  unfold radix_of.
  destruct (Ascii.eqb c "x") eqn:E1; [apply Ascii.eqb_eq in E1; subst; reflexivity |].
  destruct (Ascii.eqb c "X") eqn:E2; [apply Ascii.eqb_eq in E2; subst; reflexivity |].
  destruct (Ascii.eqb c "o") eqn:E3; [apply Ascii.eqb_eq in E3; subst; reflexivity |].
  destruct (Ascii.eqb c "O") eqn:E4; [apply Ascii.eqb_eq in E4; subst; reflexivity |].
  destruct (Ascii.eqb c "b") eqn:E5; [apply Ascii.eqb_eq in E5; subst; reflexivity |].
  destruct (Ascii.eqb c "B") eqn:E6; [apply Ascii.eqb_eq in E6; subst; reflexivity |].
  discriminate.
Qed.

Lemma digits_solid ds : Forall (fun c => is_digit c = true) ds -> solid ds.
Proof.
  intros H. eapply Forall_impl; [| exact H].
  intros c. apply digit_not_whitespace.
Qed.

Lemma exponent_solid ex : opt ExponentPart ex -> solid ex.
Proof.
  assert (S : forall si, SignedInteger si -> solid si).
  { intros si [ds [_ D] | ds [_ D] | ds [_ D]];
      repeat (constructor; [reflexivity |]); apply digits_solid, D. }
  intros [-> | [si H | si H]]; [constructor | ..];
    (constructor; [reflexivity | apply S, H]).
Qed.

Lemma unsigned_decimal_solid cs : StrUnsignedDecimalLiteral cs -> solid cs.
Proof.
  assert (O : forall fp, opt DecimalDigits fp -> solid fp).
  { intros fp [-> | [_ D]]; [constructor | apply digits_solid, D]. }
  intros [| ip fp ex [_ Hip] Hfp Hex | fp ex [_ Hfp] Hex | ip ex [_ Hip] Hex].
  - repeat constructor.
  - apply Forall_app. split; [apply digits_solid, Hip |].
    constructor; [reflexivity |].
    apply Forall_app. split; [apply O, Hfp | apply exponent_solid, Hex].
  - constructor; [reflexivity |].
    apply Forall_app. split; [apply digits_solid, Hfp | apply exponent_solid, Hex].
  - apply Forall_app. split; [apply digits_solid, Hip | apply exponent_solid, Hex].
Qed.

Lemma literal_solid lit : StrNumericLiteral lit -> lit <> [] /\ solid lit.
Proof.
  intros [cs D | cs N].
  - split.
    + destruct D as [cs H | cs H | cs H]; try discriminate.
      destruct (unsigned_decimal_head cs H) as (c & rest & -> & _). discriminate.
    + destruct D as [cs H | cs H | cs H];
        repeat (constructor; [reflexivity |]); apply unsigned_decimal_solid, H.
  - destruct N as [c radix ds Hr _ Hd]. split; [discriminate |].
    constructor; [reflexivity |].
    constructor; [eapply radix_of_not_whitespace, Hr |].
    eapply Forall_impl; [| exact Hd]. intros d. apply digit_of_not_whitespace.
Qed.

Lemma drop_while_whitespace_app ws cs :
  StrWhiteSpace ws -> drop_while is_whitespace (ws ++ cs) = drop_while is_whitespace cs.
Proof.
  intros H. induction H as [| w ws Hw _ IH]; [reflexivity |].
  simpl. rewrite Hw. exact IH.
Qed.

Lemma drop_while_solid cs rest :
  cs <> [] -> solid cs -> drop_while is_whitespace (cs ++ rest) = cs ++ rest.
Proof.
  intros Hne H. destruct H as [| c cs Hc _]; [congruence |].
  simpl. rewrite Hc. reflexivity.
Qed.

Lemma trim_blank ws : StrWhiteSpace ws -> trim ws = [].
Proof.
  intros H. unfold trim.
  rewrite <- (app_nil_r ws), drop_while_whitespace_app by exact H.
  reflexivity.
Qed.

Lemma trim_literal ws1 lit ws2 :
  StrWhiteSpace ws1 -> StrWhiteSpace ws2 -> lit <> [] -> solid lit ->
  trim (ws1 ++ lit ++ ws2) = lit.
Proof.
  intros W1 W2 Hne Hs. unfold trim.
  rewrite (drop_while_whitespace_app ws1 _ W1).
  rewrite (drop_while_solid lit ws2 Hne Hs).
  rewrite rev_app_distr.
  rewrite (drop_while_whitespace_app (rev ws2) _ (Forall_rev W2)).
  rewrite <- (app_nil_r (rev lit)).
  rewrite drop_while_solid, app_nil_r; [apply rev_involutive | | apply Forall_rev, Hs].
  intros E. apply Hne. rewrite <- (rev_involutive lit), E. reflexivity.
Qed.

(** A [StringNumericLiteral] is never turned into NaN. *)
Lemma StringToNumber_complete cs :
  StringNumericLiteral cs -> StringToNumber cs <> NaN.
Proof.
  intros [ws W | ws1 lit ws2 W1 L W2]; unfold StringToNumber.
  - rewrite (trim_blank ws W). discriminate.
  - destruct (literal_solid lit L) as [Hne Hs].
    rewrite (trim_literal ws1 lit ws2 W1 W2 Hne Hs).
    destruct L as [lit D | lit N].
    + pose proof (decimal_literal_radix lit D) as R.
      pose proof (decimal_literal_complete lit D) as C.
      destruct lit as [| z [| c ds]]; [congruence | exact C |].
      destruct (Ascii.eqb z "0"); [rewrite (R eq_refl) |]; exact C.
    + destruct N as [c radix ds Hr Hd Hf].
      change (Ascii.eqb "0" "0") with true. cbv iota. rewrite Hr.
      destruct ds as [| d ds]; [congruence |].
      rewrite (Forall_forallb _ _ Hf). apply of_Z_not_NaN.
Qed.

(** [Number] gives NaN exactly for the strings that are no numeric
    literal. *)
Lemma Number_NaN_iff s : Number s = NaN <-> ~ numeric_string s.
Proof.
  unfold Number, numeric_string. split.
  - intros E L. exact (StringToNumber_complete _ L E).
  - intros H. destruct (double_eq_NaN_dec (StringToNumber (chars s))) as [E | E];
      [exact E |].
    elim H. apply StringToNumber_sound. exact E.
Qed.

End NumericStringsRead.

(** ** Escaped line feeds *)

Lemma replace_escaped_newlines_cons c s :
  replace_escaped_newlines (String c s)
  = match s with
    | String d rest' =>
        if Ascii.eqb c backslash && Ascii.eqb d "n"
        then String LF (replace_escaped_newlines rest')
        else String c (replace_escaped_newlines s)
    | EmptyString => String c EmptyString
    end.
Proof. destruct s; reflexivity. Qed.

Lemma replace_head_not_n s :
  match replace_escaped_newlines s with
  | String d _ => d = LF \/ exists rest, s = String d rest
  | EmptyString => True
  end.
Proof.
  destruct s as [| c s]; [exact I |].
  rewrite replace_escaped_newlines_cons. destruct s as [| d s].
  - right. eauto.
  - destruct (Ascii.eqb c backslash && Ascii.eqb d "n"); [left; reflexivity | right; eauto].
Qed.

(** After the replacement no escaped line feed is left. *)
Lemma replace_escaped_newlines_complete s :
  no_escaped_newline (replace_escaped_newlines s) = true.
Proof.
  assert (H : forall s,
             no_escaped_newline (replace_escaped_newlines s) = true
             /\ forall c, no_escaped_newline (replace_escaped_newlines (String c s)) = true).
  { clear s. induction s as [| d s [IH1 IH2]].
    - split; [reflexivity | intros c; reflexivity].
    - split; [apply IH2 |]. intros c.
      rewrite replace_escaped_newlines_cons.
      destruct (Ascii.eqb c backslash && Ascii.eqb d "n") eqn:E.
      + cbn [no_escaped_newline].
        destruct (replace_escaped_newlines s) as [| e r] eqn:R; [reflexivity |].
        rewrite IH1. reflexivity.
      + cbn [no_escaped_newline].
        pose proof (replace_head_not_n (String d s)) as Hd.
        pose proof (IH2 d) as H2.
        destruct (replace_escaped_newlines (String d s)) as [| e r] eqn:R; [reflexivity |].
        rewrite H2, andb_true_r.
        destruct Hd as [-> | [rest Hrest]].
        * rewrite andb_false_r. reflexivity.
        * injection Hrest as <- _. rewrite E. reflexivity. }
  apply H.
Qed.

(** An escaped line feed between two texts becomes a line feed between
    their replacements. *)
Lemma replace_escaped_newlines_app a b :
  replace_escaped_newlines (a ++ escaped_newline ++ b)
  = replace_escaped_newlines a ++ String LF (replace_escaped_newlines b).
Proof.
  assert (H : forall a,
             replace_escaped_newlines (a ++ escaped_newline ++ b)
             = replace_escaped_newlines a ++ String LF (replace_escaped_newlines b)
             /\ forall c,
                 replace_escaped_newlines (String c a ++ escaped_newline ++ b)
                 = replace_escaped_newlines (String c a)
                   ++ String LF (replace_escaped_newlines b)).
  { clear a. induction a as [| d a [IH1 IH2]].
    - split; [reflexivity |]. intros c. cbn [append escaped_newline].
      rewrite replace_escaped_newlines_cons.
      destruct (Ascii.eqb c backslash && Ascii.eqb backslash "n") eqn:E.
      + rewrite andb_true_iff in E. destruct E as [_ E]. discriminate.
      + reflexivity.
    - split; [apply IH2 |]. intros c.
      change (String c (String d a) ++ escaped_newline ++ b)
        with (String c (String d (a ++ escaped_newline ++ b))).
      rewrite !(replace_escaped_newlines_cons c).
      destruct (Ascii.eqb c backslash && Ascii.eqb d "n").
      + rewrite IH1. reflexivity.
      + change (String d (a ++ escaped_newline ++ b))
          with (String d a ++ escaped_newline ++ b).
        rewrite IH2. reflexivity. }
  apply H.
Qed.

(** A text without backslash is left as it is. *)
Lemma replace_escaped_newlines_id s :
  no_backslash s = true -> replace_escaped_newlines s = s.
Proof.
  induction s as [| c s IH]; [reflexivity |].
  cbn [no_backslash]. intros H. apply andb_prop in H. destruct H as [Hc Hs].
  rewrite replace_escaped_newlines_cons. destruct s as [| d s]; [reflexivity |].
  apply negb_true_iff in Hc. rewrite Hc. simpl andb. cbv iota.
  rewrite IH by exact Hs. reflexivity.
Qed.

(** ** The path enumerator *)

Section PathEnumerator.

Variables SSRConfig ProjectStatus Geometry History : Type.
Variable locales : list string.

Implicit Types (w : Upstream SSRConfig ProjectStatus Geometry History).
Implicit Types (features : list (Centroid.t ProjectStatus)).

Lemma count_occ_withLocales (i a lng : string) (ls : list string) :
  count_occ Path_eq_dec (map (fun l => Path.mk a l) ls) (Path.mk i lng)
  = if string_dec a i then count_occ string_dec ls lng else 0%nat.
Proof.
  induction ls as [| l ls IH]; simpl.
  - destruct (string_dec a i); reflexivity.
  - rewrite IH.
    destruct (Path_eq_dec (Path.mk a l) (Path.mk i lng)) as [E | N].
    + injection E as -> ->.
      destruct (string_dec i i); [| congruence].
      destruct (string_dec lng lng); [reflexivity | congruence].
    + destruct (string_dec a i) as [-> |]; [| reflexivity].
      destruct (string_dec l lng) as [-> |]; [congruence | reflexivity].
Qed.

Lemma count_occ_pathsWithParams (i lng : string) features :
  count_occ Path_eq_dec (pathsWithParams locales features) (Path.mk i lng)
  = (count_occ string_dec
       (map (fun f => Properties.project_id (Centroid.properties f)) features) i
     * count_occ string_dec locales lng)%nat.
Proof.
  unfold pathsWithParams.
  induction features as [| f fs IH]; simpl; [reflexivity |].
  rewrite count_occ_app, IH, count_occ_withLocales.
  destruct (string_dec (Properties.project_id (Centroid.properties f)) i); simpl; lia.
Qed.

Lemma length_pathsWithParams features :
  List.length (pathsWithParams locales features)
  = (List.length locales * List.length features)%nat.
Proof.
  unfold pathsWithParams.
  induction features as [| f fs IH]; simpl; [lia |].
  rewrite length_app, length_map, IH. lia.
Qed.

Lemma nth_error_pathsWithParams features (i j : nat) feature (lng : string) :
  nth_error features i = Some feature ->
  nth_error locales j = Some lng ->
  nth_error (pathsWithParams locales features) (i * List.length locales + j)
  = Some (Path.mk (Properties.project_id (Centroid.properties feature)) lng).
Proof.
  intros Hf Hl. unfold pathsWithParams.
  assert (Hj : (j < List.length locales)%nat)
    by (apply nth_error_Some; congruence).
  revert i Hf. induction features as [| f fs IH]; intros i Hf.
  - destruct i; discriminate.
  - destruct i as [| i]; simpl in Hf |- *.
    + injection Hf as ->.
      rewrite nth_error_app1 by (rewrite length_map; exact Hj).
      rewrite nth_error_map, Hl. reflexivity.
    + rewrite nth_error_app2 by (rewrite length_map; lia).
      rewrite length_map.
      replace (List.length locales + i * List.length locales + j - List.length locales)%nat
        with (i * List.length locales + j)%nat by lia.
      apply IH. exact Hf.
Qed.

(** C4. Once the catalogue is fetched, [getStaticPaths] returns
    [N * M] paths for [M] catalogue records and [N] locales, and the path
    of an identifier and a locale occurs as many times as the identifier
    occurs in the catalogue times the locale occurs in the list of
    locales: never for an identifier or a locale that is not listed, and
    exactly once when the identifiers of the catalogue are pairwise
    distinct and so are the locales. The paths are laid out record by
    record: the path of the [i]-th record and the [j]-th locale is the
    one at position [i * N + j]. *)
Theorem getStaticPaths_cartesian_product w projects :
  getProjectCentroids w = fulfilled projects ->
  exists sp,
    getStaticPaths locales w = fulfilled sp
    /\ StaticPaths.fallback sp = false
    /\ List.length (StaticPaths.paths sp)
       = (List.length locales * List.length (FeatureCollection.features projects))%nat
    /\ (forall (i j : nat) feature lng,
          nth_error (FeatureCollection.features projects) i = Some feature ->
          nth_error locales j = Some lng ->
          nth_error (StaticPaths.paths sp) (i * List.length locales + j)
          = Some (Path.mk (Properties.project_id (Centroid.properties feature)) lng))
    /\ (forall i lng,
          count_occ Path_eq_dec (StaticPaths.paths sp) (Path.mk i lng)
          = (count_occ string_dec (identifiers projects) i
             * count_occ string_dec locales lng)%nat)
    /\ (NoDup (identifiers projects) -> NoDup locales ->
        NoDup (StaticPaths.paths sp)
        /\ forall i lng,
             In i (identifiers projects) -> In lng locales ->
             count_occ Path_eq_dec (StaticPaths.paths sp) (Path.mk i lng) = 1%nat).
Proof.
  intros Hc. unfold getStaticPaths. rewrite Hc. simpl.
  eexists. split; [reflexivity |]. simpl.
  fold (pathsWithParams locales (FeatureCollection.features projects)).
  split; [reflexivity |].
  split; [apply length_pathsWithParams |].
  split; [intros; apply nth_error_pathsWithParams; assumption |].
  split; [intros; apply count_occ_pathsWithParams |].
  intros Hi Hl. split.
  - apply (NoDup_count_occ Path_eq_dec). intros [i lng].
    rewrite count_occ_pathsWithParams.
    pose proof (proj1 (NoDup_count_occ string_dec _) Hi i) as H1.
    pose proof (proj1 (NoDup_count_occ string_dec _) Hl lng) as H2.
    unfold identifiers in H1. nia.
  - intros i lng Ii Il. rewrite count_occ_pathsWithParams.
    apply (proj1 (NoDup_count_occ' string_dec _) Hi) in Ii.
    apply (proj1 (NoDup_count_occ' string_dec _) Hl) in Il.
    unfold identifiers in Ii. rewrite Ii, Il. reflexivity.
Qed.

End PathEnumerator.

(** ** Promises *)

Section Promises.

Context {A : Type}.
Implicit Types (ps : list (promise A)).

Lemma first_rejection_None ps :
  first_rejection ps = None <->
  Forall (fun p => exists a, outcome p = fulfilled a) ps.
Proof.
  induction ps as [| p ps IH]; simpl.
  - split; auto.
  - destruct (outcome p) as [a | e] eqn:E.
    + rewrite IH. split.
      * intros H. constructor; [eauto | exact H].
      * intros H. inversion H; assumption.
    + split.
      * destruct (first_rejection ps) as [[t e'] |]; [| discriminate].
        destruct (settled_at p <=? t)%nat; discriminate.
      * intros H. inversion H as [| ? ? [a Ha] _]; subst.
        rewrite E in Ha. discriminate.
Qed.

Lemma first_rejection_Some ps t e :
  first_rejection ps = Some (t, e) ->
  exists p, In p ps /\ outcome p = rejected e /\ settled_at p = t.
Proof.
  revert t e. induction ps as [| p ps IH]; simpl; intros t e H; [discriminate |].
  destruct (outcome p) as [a | e0] eqn:E.
  - destruct (IH _ _ H) as (q & Hq & Ho & Ht). eauto.
  - destruct (first_rejection ps) as [[t' e'] |].
    + destruct (settled_at p <=? t')%nat.
      * injection H as <- <-. eauto.
      * injection H as <- <-.
        destruct (IH _ _ eq_refl) as (q & Hq & Ho & Ht). eauto.
    + injection H as <- <-. eauto.
Qed.

(** [Promise.all] fulfils exactly when every promise does, with their
    values in the order of the promises. *)
Lemma Promise_all_fulfilled ps l :
  Promise_all ps = fulfilled l <->
  Forall2 (fun p a => outcome p = fulfilled a) ps l.
Proof.
  unfold Promise_all. split.
  - destruct (first_rejection ps) as [[t e] |] eqn:F; [discriminate |].
    intros H. injection H as <-.
    apply first_rejection_None in F.
    induction F as [| p ps [a Ha] _ IH]; simpl; [constructor |].
    rewrite Ha. constructor; assumption.
  - intros H.
    assert (F : first_rejection ps = None).
    { apply first_rejection_None.
      induction H; constructor; eauto. }
    rewrite F. f_equal.
    induction H as [| p a ps l Hp _ IH]; simpl; [reflexivity |].
    rewrite Hp, IH; [reflexivity |].
    simpl in F. rewrite Hp in F. exact F.
Qed.

(** [Promise.all] rejects as soon as one promise does, with the reason of
    one of the rejected promises. *)
Lemma Promise_all_rejected ps p e :
  In p ps -> outcome p = rejected e ->
  exists q e', In q ps /\ outcome q = rejected e' /\ Promise_all ps = rejected e'.
Proof.
  intros Hin Hp. unfold Promise_all.
  destruct (first_rejection ps) as [[t e'] |] eqn:F.
  - destruct (first_rejection_Some _ _ _ F) as (q & Hq & Ho & _). eauto.
  - apply first_rejection_None in F. rewrite Forall_forall in F.
    destruct (F p Hin) as [a Ha]. congruence.
Qed.

End Promises.

(** ** The per-page build *)

Section PageBuild.

Variables SSRConfig ProjectStatus Geometry History : Type.
Variable matter : string -> settled GrayMatterFile.t.
Variable remark_html : string -> settled string.

Implicit Types (w : Upstream SSRConfig ProjectStatus Geometry History).
Implicit Types (context : Context.t).
Implicit Types (props : Props.t SSRConfig ProjectStatus Geometry History).
Implicit Types (project : Centroid.t ProjectStatus).

Lemma getStaticProps_joined w context tr project geojson hist html :
  joined matter remark_html w context tr project geojson hist html ->
  getStaticProps matter remark_html w context
  = (urlResponses <- Promise_all (urlResponsePromises w (projectId context)) ;;
     fulfilled (assemble tr project geojson hist html urlResponses)).
Proof.
  intros [tr' projects project' geos hist' m html' Ht Hc Hf Hg Hh Hm Hr].
  unfold getStaticProps. fold (locale context). fold (projectId context).
  rewrite Ht. simpl. rewrite Hc. simpl.
  unfold find_project in Hf. rewrite Hf.
  rewrite Hg. simpl. rewrite Hh. simpl. rewrite Hm. simpl. rewrite Hr. simpl.
  reflexivity.
Qed.

Lemma getStaticProps_fulfilled_inv w context props :
  getStaticProps matter remark_html w context = fulfilled props ->
  exists tr project geojson hist html urlResponses,
    joined matter remark_html w context tr project geojson hist html
    /\ Promise_all (urlResponsePromises w (projectId context)) = fulfilled urlResponses
    /\ props = assemble tr project geojson hist html urlResponses.
Proof.
  unfold getStaticProps. fold (locale context). fold (projectId context).
  destruct (serverSideTranslations w (locale context) ["project"; "common"])
    as [tr |] eqn:Ht; [simpl | discriminate].
  destruct (getProjectCentroids w) as [projects |] eqn:Hc; [simpl | discriminate].
  destruct (find _ (FeatureCollection.features projects)) as [project |] eqn:Hf;
    [| discriminate].
  destruct (getProjectGeometries w) as [geos |] eqn:Hg; [simpl | discriminate].
  destruct (getProjectHistory w _) as [hist |] eqn:Hh; [simpl | discriminate].
  destruct (matter _) as [m |] eqn:Hm; [simpl | discriminate].
  destruct (remark_html _) as [html |] eqn:Hr; [simpl | discriminate].
  destruct (Promise_all _) as [infos |] eqn:Hp; [simpl | discriminate].
  intros H. injection H as <-.
  exists tr, project, (geojson_of (projectId context) geos), hist, html, infos.
  split; [| split; reflexivity].
  econstructor; eassumption.
Qed.

(** What the probes of a project fulfil with, entry by entry. *)
Lemma urlResponsePromises_fulfilled w (id : param) infos :
  Promise_all (urlResponsePromises w id) = fulfilled infos <->
  Forall2 (fun url info =>
             exists res, outcome (fetch_head w (Url.url url)) = fulfilled res
                         /\ info = urlInfo url res)
          (urls id) infos.
Proof.
  rewrite Promise_all_fulfilled. unfold urlResponsePromises.
  generalize (urls id). intros us. split.
  - revert infos. induction us as [| u us IH]; intros infos H; inversion H; subst.
    + constructor.
    + constructor; [| apply IH; assumption].
      simpl in *. destruct (outcome (fetch_head w (Url.url u))) as [res |];
        [| discriminate].
      simpl in *. exists res. split; congruence.
  - intros H. induction H as [| u info us infos (res & Hres & ->) _ IH]; simpl.
    + constructor.
    + constructor; [| exact IH]. simpl. rewrite Hres. reflexivity.
Qed.

Lemma descriptor_urlInfo url res : descriptor (urlInfo url res) = url.
Proof. destruct url. reflexivity. Qed.

Lemma urlResponses_descriptors w (id : param) infos :
  Promise_all (urlResponsePromises w id) = fulfilled infos ->
  map descriptor infos = urls id.
Proof.
  intros H. apply urlResponsePromises_fulfilled in H.
  induction H as [| u info us infos (res & _ & ->) _ IH]; simpl; [reflexivity |].
  rewrite descriptor_urlInfo, IH. reflexivity.
Qed.

Lemma Promise_all_retimed w (id : param) (instant : string -> nat) infos :
  Promise_all (urlResponsePromises w id) = fulfilled infos ->
  Promise_all (urlResponsePromises (retimed instant w) id) = fulfilled infos.
Proof.
  rewrite !urlResponsePromises_fulfilled. simpl. auto.
Qed.

Lemma joined_retimed w context (instant : string -> nat) tr project geojson hist html :
  joined matter remark_html w context tr project geojson hist html ->
  joined matter remark_html (retimed instant w) context tr project geojson hist html.
Proof. intros []. econstructor; simpl; eassumption. Qed.

(** C2. When the fetched catalogue holds no record whose identifier is
    the one asked for, [getStaticProps] returns no page record at all: it
    rejects, and (the translations being loaded first) the rejection is
    the error "Could not get project <identifier>". *)
Theorem getStaticProps_not_found w context projects :
  getProjectCentroids w = fulfilled projects ->
  (forall feature,
      In feature (FeatureCollection.features projects) ->
      strict_eq (Properties.project_id (Centroid.properties feature))
                (projectId context) = false) ->
  (forall props, getStaticProps matter remark_html w context <> fulfilled props)
  /\ (forall translations,
        serverSideTranslations w (locale context) ["project"; "common"]
          = fulfilled translations ->
        getStaticProps matter remark_html w context
        = rejected (Error ("Could not get project " ++ to_template (projectId context)))).
Proof.
  intros Hc Hno.
  assert (Hf : find_project (projectId context) projects = None).
  { unfold find_project.
    destruct (find _ _) as [f |] eqn:E; [| reflexivity].
    apply find_some in E. destruct E as [Hin He].
    rewrite (Hno f Hin) in He. discriminate. }
  split.
  - intros props H.
    apply getStaticProps_fulfilled_inv in H.
    destruct H as (tr & project & g & hist & html & infos & J & _).
    destruct J as [? projects' ? ? ? ? ? _ Hc' Hf' _ _ _ _].
    congruence.
  - intros tr Ht. unfold getStaticProps.
    fold (locale context). fold (projectId context).
    rewrite Ht. simpl. rewrite Hc. simpl.
    unfold find_project in Hf. rewrite Hf. reflexivity.
Qed.

(** C3. Whenever [getStaticProps] returns a page record, its [urls] has
    exactly 10 entries, one per descriptor of the catalogue [urls] and in
    the order of that catalogue, whatever the [ok] flags of the probes;
    the instants at which the probes settle play no part: with any other
    instants the same record is returned. *)
Theorem urls_in_catalogue_order w context props :
  getStaticProps matter remark_html w context = fulfilled props ->
  List.length (Props.urls props) = 10%nat
  /\ map descriptor (Props.urls props) = urls (projectId context)
  /\ map UrlInfo.name (Props.urls props)
     = [ DownloadType.aggregated_results;
         DownloadType.aggregated_results_with_geometry;
         DownloadType.hot_tasking_manager_geometries;
         DownloadType.moderate_to_high_agreement_yes_maybe_geometries;
         DownloadType.groups;
         DownloadType.history;
         DownloadType.results;
         DownloadType.tasks;
         DownloadType.users;
         DownloadType.area_of_interest ]
  /\ forall instant : string -> nat,
       getStaticProps matter remark_html (retimed instant w) context = fulfilled props.
Proof.
  intros H. apply getStaticProps_fulfilled_inv in H.
  destruct H as (tr & project & g & hist & html & infos & J & Hp & ->).
  pose proof (urlResponses_descriptors _ _ _ Hp) as Hd.
  simpl. repeat split.
  - rewrite <- (length_map descriptor), Hd. reflexivity.
  - exact Hd.
  - replace (map UrlInfo.name infos) with (map Url.name (map descriptor infos)).
    + rewrite Hd. reflexivity.
    + rewrite map_map. reflexivity.
  - intros instant.
    rewrite (getStaticProps_joined _ _ _ _ _ _ _ (joined_retimed _ _ instant _ _ _ _ _ J)).
    rewrite (Promise_all_retimed _ _ instant _ Hp). reflexivity.
Qed.

(** C8. When the fetched geometries hold no record for the identifier,
    the geometry joined for it is the absent value and every page record
    returned has [projectGeoJSON] null; the absence raises nothing and
    touches nothing else: the build ends as it does with any other fetched
    collection of geometries, with the same error or with the same record
    (the same summary record behind it) less its geometry. *)
Theorem missing_geometry_is_absent w context geojsons :
  getProjectGeometries w = fulfilled geojsons ->
  (forall feature,
      In feature (FeatureCollection.features geojsons) ->
      strict_eq (GeoProperties.project_id (GeoFeature.properties feature))
                (projectId context) = false) ->
  geojson_of (projectId context) geojsons = undefined
  /\ (forall props,
        getStaticProps matter remark_html w context = fulfilled props ->
        Props.projectGeoJSON props = None)
  /\ (forall tr project geojson hist html,
        joined matter remark_html w context tr project geojson hist html ->
        geojson = undefined
        /\ getStaticProps matter remark_html w context
           = (urlResponses <- Promise_all (urlResponsePromises w (projectId context)) ;;
              fulfilled (assemble tr project undefined hist html urlResponses)))
  /\ (forall geojsons',
        getStaticProps matter remark_html w context
        = settled_map without_geometry
            (getStaticProps matter remark_html (with_geometries w geojsons') context)).
Proof.
  intros Hg Hno.
  assert (Hu : geojson_of (projectId context) geojsons = undefined).
  { unfold geojson_of, find_geometry.
    destruct (find _ _) as [f |] eqn:E; [| reflexivity].
    apply find_some in E. destruct E as [Hin He].
    rewrite (Hno f Hin) in He. discriminate. }
  assert (HJ : forall tr project geojson hist html,
             joined matter remark_html w context tr project geojson hist html -> geojson = undefined).
  { intros tr project geojson hist html J.
    destruct J as [? ? ? geos ? ? ? _ _ _ Hg' _ _ _].
    rewrite Hg in Hg'. injection Hg' as <-. exact Hu. }
  split; [exact Hu |]. split; [| split].
  - intros props H. apply getStaticProps_fulfilled_inv in H.
    destruct H as (tr & project & g & hist & html & infos & J & _ & ->).
    rewrite (HJ _ _ _ _ _ J). reflexivity.
  - intros tr project geojson hist html J. split.
    + exact (HJ _ _ _ _ _ J).
    + rewrite <- (HJ _ _ _ _ _ J). apply getStaticProps_joined. exact J.
  - intros geojsons'. unfold getStaticProps; simpl.
    fold (locale context). fold (projectId context).
    destruct (serverSideTranslations w _ _); [simpl | reflexivity].
    destruct (getProjectCentroids w) as [projects |]; [simpl | reflexivity].
    destruct (find _ (FeatureCollection.features projects)); [| reflexivity].
    rewrite Hg. simpl.
    destruct (getProjectHistory w _); [simpl | reflexivity].
    destruct (matter _); [simpl | reflexivity].
    destruct (remark_html _); [simpl | reflexivity].
    destruct (Promise_all _); [simpl | reflexivity].
    unfold without_geometry; simpl. fold (find_geometry (projectId context) geojsons).
    fold (geojson_of (projectId context) geojsons). rewrite Hu. reflexivity.
Qed.

Lemma Forall2_In_left {A B : Type} (P : A -> B -> Prop) (l : list A) (l' : list B) x :
  Forall2 P l l' -> In x l -> exists y, In y l' /\ P x y.
Proof.
  intros F. induction F as [| a b l l' Hab _ IH]; intros Hin; [contradiction |].
  destruct Hin as [-> | Hin].
  - exists b. split; [left; reflexivity | exact Hab].
  - destruct (IH Hin) as (y & Hy & Hp). exists y. split; [right; exact Hy | exact Hp].
Qed.

(** C1, as the code has it. A probe whose request rejects (a network
    error, a timeout) is not caught: the build then returns no record,
    and when everything before the probes went well it rejects with the
    reason of a rejected probe. A probe answered with a status that is
    not a success fails nothing: when every probe is answered, whatever
    the statuses, the build returns its record, each probe result carrying
    the [ok] flag of its response and the Number of its content-length
    header, so that an unsuccessful answer without that header is
    recorded with [ok] false and [size] 0. *)
Theorem probe_status_tolerated_rejection_fatal w context :
  (forall url e,
      In url (urls (projectId context)) ->
      outcome (fetch_head w (Url.url url)) = rejected e ->
      forall props, getStaticProps matter remark_html w context <> fulfilled props)
  /\ forall tr project geojson hist html,
       joined matter remark_html w context tr project geojson hist html ->
       (forall url e,
           In url (urls (projectId context)) ->
           outcome (fetch_head w (Url.url url)) = rejected e ->
           exists url' e',
             In url' (urls (projectId context))
             /\ outcome (fetch_head w (Url.url url')) = rejected e'
             /\ getStaticProps matter remark_html w context = rejected e')
       /\ ((forall url, In url (urls (projectId context)) ->
              exists res, outcome (fetch_head w (Url.url url)) = fulfilled res) ->
           exists urlResponses,
             getStaticProps matter remark_html w context
             = fulfilled (assemble tr project geojson hist html urlResponses)
             /\ Forall2 (fun url info =>
                           exists res,
                             outcome (fetch_head w (Url.url url)) = fulfilled res
                             /\ info = urlInfo url res
                             /\ UrlInfo.ok info = Response.ok res
                             /\ UrlInfo.size info = Number (content_length res)
                             /\ (Response.ok res = false ->
                                 Response.headers_get res "content-length" = None ->
                                 UrlInfo.ok info = false
                                 /\ UrlInfo.size info = S754_zero false))
                        (urls (projectId context)) urlResponses).
Proof.
  split.
  { intros url e Hin Hrej props H.
    apply getStaticProps_fulfilled_inv in H.
    destruct H as (tr & project & g & hist & html & infos & _ & P & _).
    apply urlResponsePromises_fulfilled in P.
    destruct (Forall2_In_left _ _ _ url P Hin) as (info & _ & res & Hres & _).
    congruence. }
  intros tr project geojson hist html J.
  rewrite (getStaticProps_joined _ _ _ _ _ _ _ J). split.
  - intros url e Hin Hrej.
    destruct (Promise_all_rejected (urlResponsePromises w (projectId context))
                (mkPromise (settled_at (fetch_head w (Url.url url)))
                           (res <- outcome (fetch_head w (Url.url url)) ;;
                            fulfilled (urlInfo url res))) e)
      as (q & e' & Hq & Hoq & Hall).
    + unfold urlResponsePromises. apply in_map_iff. exists url. split; [reflexivity | exact Hin].
    + simpl. rewrite Hrej. reflexivity.
    + rewrite Hall. simpl.
      unfold urlResponsePromises in Hq. apply in_map_iff in Hq.
      destruct Hq as (url' & <- & Hin'). simpl in Hoq.
      exists url', e'. split; [exact Hin' |]. split; [| reflexivity].
      destruct (outcome (fetch_head w (Url.url url'))); simpl in Hoq; congruence.
  - intros Hall.
    assert (F : exists infos,
               Forall2 (fun url info =>
                          exists res, outcome (fetch_head w (Url.url url)) = fulfilled res
                                      /\ info = urlInfo url res)
                       (urls (projectId context)) infos).
    { revert Hall. generalize (urls (projectId context)). intros us.
      induction us as [| u us IH]; intros Hall.
      - exists []. constructor.
      - destruct (Hall u (or_introl eq_refl)) as [res Hres].
        destruct IH as [infos Hinfos]; [intros; apply Hall; right; assumption |].
        exists (urlInfo u res :: infos). constructor; eauto. }
    destruct F as [infos F]. exists infos. split.
    + apply urlResponsePromises_fulfilled in F. rewrite F. reflexivity.
    + eapply Forall2_impl; [| exact F].
      intros u info (res & Hres & ->). exists res.
      split; [exact Hres |]. split; [reflexivity |].
      split; [reflexivity |]. split; [reflexivity |].
      unfold urlInfo, content_length; simpl. intros -> ->. split; reflexivity.
Qed.

(** C9. Two builds for the same identifier over the same upstream data
    return, when both return a record, records that agree in every field
    but the [ok] and [size] of their probe results: the records are equal
    once the probe results of one are put in the other, and the probe
    results carry the same descriptors. A probe result differs only where
    the two responses to that probe differ in their [ok] flag or their
    content-length header; when no response differs the two records are
    equal. *)
Theorem getStaticProps_deterministic w1 w2 context props1 props2 :
  same_snapshot w1 w2 ->
  getStaticProps matter remark_html w1 context = fulfilled props1 ->
  getStaticProps matter remark_html w2 context = fulfilled props2 ->
  props1 = with_urls props2 (Props.urls props1)
  /\ map descriptor (Props.urls props1) = map descriptor (Props.urls props2)
  /\ Forall2 (fun info1 info2 =>
                info1 = info2
                \/ exists res1 res2,
                     outcome (fetch_head w1 (UrlInfo.url info1)) = fulfilled res1
                     /\ outcome (fetch_head w2 (UrlInfo.url info2)) = fulfilled res2
                     /\ ~ same_answer res1 res2)
             (Props.urls props1) (Props.urls props2)
  /\ ((forall url res1 res2,
          In url (urls (projectId context)) ->
          outcome (fetch_head w1 (Url.url url)) = fulfilled res1 ->
          outcome (fetch_head w2 (Url.url url)) = fulfilled res2 ->
          same_answer res1 res2) ->
      props1 = props2).
Proof.
  intros (St & Sc & Sg & Sh) H1 H2.
  apply getStaticProps_fulfilled_inv in H1, H2.
  destruct H1 as (tr1 & p1 & g1 & h1 & html1 & infos1 & J1 & P1 & ->).
  destruct H2 as (tr2 & p2 & g2 & h2 & html2 & infos2 & J2 & P2 & ->).
  destruct J1 as [tr1 ps1 p1 gs1 h1 m1 html1 Ht1 Hc1 Hf1 Hg1 Hh1 Hm1 Hr1].
  destruct J2 as [tr2 ps2 p2 gs2 h2 m2 html2 Ht2 Hc2 Hf2 Hg2 Hh2 Hm2 Hr2].
  rewrite St, Ht2 in Ht1. injection Ht1 as <-.
  rewrite Sc, Hc2 in Hc1. injection Hc1 as <-.
  rewrite Hf2 in Hf1. injection Hf1 as <-.
  rewrite Sg, Hg2 in Hg1. injection Hg1 as <-.
  rewrite Sh, Hh2 in Hh1. injection Hh1 as <-.
  rewrite Hm2 in Hm1. injection Hm1 as <-.
  rewrite Hr2 in Hr1. injection Hr1 as <-.
  apply urlResponsePromises_fulfilled in P1, P2.
  cbn [assemble Props.urls]. split; [reflexivity |].
  assert (D : map descriptor infos1 = map descriptor infos2).
  { rewrite (urlResponses_descriptors w1 (projectId context) infos1),
            (urlResponses_descriptors w2 (projectId context) infos2);
      [reflexivity | |]; apply urlResponsePromises_fulfilled; assumption. }
  split; [exact D |].
  assert (F : Forall2 (fun info1 info2 =>
             exists url res1 res2,
               In url (urls (projectId context))
               /\ outcome (fetch_head w1 (Url.url url)) = fulfilled res1
               /\ outcome (fetch_head w2 (Url.url url)) = fulfilled res2
               /\ info1 = urlInfo url res1 /\ info2 = urlInfo url res2)
            infos1 infos2).
  { clear D. revert P1 P2.
    assert (Hsub : incl (urls (projectId context)) (urls (projectId context)))
      by apply incl_refl.
    revert Hsub. generalize (urls (projectId context)) at 1 3 4. intros us Hsub P1.
    revert infos2. induction P1 as [| u i1 us infos1 (r1 & Hr1' & ->) _ IH];
      intros infos2 P2; inversion P2 as [| ? i2 ? infos2' (r2 & Hr2' & ->) P2']; subst.
    - constructor.
    - constructor.
      + exists u, r1, r2. repeat split; try assumption. apply Hsub. left. reflexivity.
      + apply IH; [| assumption]. intros x Hx. apply Hsub. right. exact Hx. }
  split.
  - eapply Forall2_impl; [| exact F].
    intros i1 i2 (u & r1 & r2 & _ & Ho1 & Ho2 & -> & ->).
    destruct (Bool.bool_dec (Response.ok r1) (Response.ok r2)) as [Eok | Nok].
    + destruct (header_eq_dec
                  (Response.headers_get r1 "content-length")
                  (Response.headers_get r2 "content-length")) as [Eh | Nh].
      * left. unfold urlInfo, content_length. rewrite Eok, Eh. reflexivity.
      * right. exists r1, r2. destruct u; simpl.
        repeat split; try assumption. intros [_ E]. contradiction.
    + right. exists r1, r2. destruct u; simpl.
      repeat split; try assumption. intros [E _]. contradiction.
  - intros Hsame. f_equal.
    clear D P1 P2. induction F as [| i1 i2 l1 l2 (u & r1 & r2 & Hin & Ho1 & Ho2 & -> & ->) _ IH];
      [reflexivity |].
    f_equal; [| apply IH].
    destruct (Hsame u r1 r2 Hin Ho1 Ho2) as [Eok Eh].
    unfold urlInfo, content_length. rewrite Eok, Eh. reflexivity.
Qed.

(** C5. In every page record, [totalProgress] is null when the progress of
    the summary record is null or undefined, never 0; and when the progress
    is a fraction it is [Math.round] of the product of the fraction by
    100: an integer within one half of that product whenever the product
    is finite. The fraction 0.4567 gives 46. *)
Theorem totalProgress_normalised w context props :
  getStaticProps matter remark_html w context = fulfilled props ->
  exists tr project geojson hist html,
    joined matter remark_html w context tr project geojson hist html
    /\ match Properties.progress (Centroid.properties project) with
       | value fraction =>
           Props.totalProgress props = Some (Math_round (mul fraction (of_Z 100)))
           /\ (is_finite (mul fraction (of_Z 100)) = true ->
               nearest_integer_of (mul fraction (of_Z 100))
                                  (Math_round (mul fraction (of_Z 100))))
           /\ (fraction = Number "0.4567" ->
               Props.totalProgress props = Some (Number "46"))
       | null | undefined => Props.totalProgress props = None
       end.
Proof.
  intros H. apply getStaticProps_fulfilled_inv in H.
  destruct H as (tr & project & g & hist & html & infos & J & _ & ->).
  exists tr, project, g, hist, html. split; [exact J |].
  cbn [assemble Props.totalProgress]. unfold totalProgress_of.
  destruct (Properties.progress (Centroid.properties project)) as [| | fraction];
    try reflexivity.
  split; [reflexivity |]. split.
  - apply Math_round_of_finite.
  - intros ->. vm_compute. reflexivity.
Qed.

(** C6. In every page record, [totalArea] is a Number: 0 when the area of
    the summary record is null or undefined, and otherwise [Math.round]
    of the area, an integer within one half of it whenever the area is
    finite. The area 12.3 gives 12. *)
Theorem totalArea_normalised w context props :
  getStaticProps matter remark_html w context = fulfilled props ->
  exists tr project geojson hist html,
    joined matter remark_html w context tr project geojson hist html
    /\ match Properties.area_sqkm (Centroid.properties project) with
       | value area =>
           Props.totalArea props = Math_round area
           /\ (is_finite area = true -> nearest_integer_of area (Math_round area))
           /\ (area = Number "12.3" -> Props.totalArea props = Number "12")
       | null | undefined => Props.totalArea props = Number "0"
       end.
Proof.
  intros H. apply getStaticProps_fulfilled_inv in H.
  destruct H as (tr & project & g & hist & html & infos & J & _ & ->).
  exists tr, project, g, hist, html. split; [exact J |].
  cbn [assemble Props.totalArea]. unfold totalArea_of.
  destruct (Properties.area_sqkm (Centroid.properties project)) as [| | area];
    try reflexivity.
  cbn [coalesce]. split; [reflexivity |]. split.
  - apply Math_round_of_finite.
  - intros ->. vm_compute. reflexivity.
Qed.

(** C10. In every page record, each probe result carries the [ok] flag of
    the response to its probe, and its [size] is [Number] of the
    content-length header of that response, or of the string "0" when the
    response has no such header, which is 0. [Number] of a header is NaN
    exactly when the header is no numeric string, and 0 when it is empty
    or blank; for a header made of decimal digits it is the Number of
    the integer they denote, which is that very integer below 2^53 (so
    162 for "162"), and it also reads an exponent ("1e3" is 1000) and a
    radix prefix ("0x1F" is 31). A response that is not [ok] but has the
    header is recorded with the Number of the header. *)
Theorem size_is_Number_of_content_length w context props :
  getStaticProps matter remark_html w context = fulfilled props ->
  Forall2 (fun url info =>
             exists res,
               outcome (fetch_head w (Url.url url)) = fulfilled res
               /\ UrlInfo.ok info = Response.ok res
               /\ match Response.headers_get res "content-length" with
                  | Some v =>
                      UrlInfo.size info = Number v
                      /\ (UrlInfo.size info = NaN <-> ~ numeric_string v)
                      /\ (StrWhiteSpace (chars v) -> UrlInfo.size info = S754_zero false)
                      /\ (chars v <> [] -> forallb is_digit (chars v) = true ->
                          UrlInfo.size info = of_Z (Z.of_N (digits_value 10 (chars v)))
                          /\ ((Z.of_N (digits_value 10 (chars v)) < 2 ^ 53)%Z ->
                              has_value (UrlInfo.size info)
                                        (inject_Z (Z.of_N (digits_value 10 (chars v))))))
                      /\ (v = "162" -> has_value (UrlInfo.size info) (inject_Z 162))
                      /\ (v = "1e3" -> has_value (UrlInfo.size info) (inject_Z 1000))
                      /\ (v = "0x1F" -> has_value (UrlInfo.size info) (inject_Z 31))
                      /\ (Response.ok res = false ->
                          UrlInfo.ok info = false /\ UrlInfo.size info = Number v)
                  | None =>
                      UrlInfo.size info = Number "0"
                      /\ UrlInfo.size info = S754_zero false
                  end)
          (urls (projectId context)) (Props.urls props).
Proof.
  intros H. apply getStaticProps_fulfilled_inv in H.
  destruct H as (tr & project & g & hist & html & infos & _ & P & ->).
  cbn [assemble Props.urls].
  apply urlResponsePromises_fulfilled in P.
  eapply Forall2_impl; [| exact P].
  intros url info (res & Hres & ->). exists res.
  split; [exact Hres |]. split; [reflexivity |].
  unfold urlInfo, content_length. cbn [UrlInfo.size UrlInfo.ok].
  destruct (Response.headers_get res "content-length") as [v |].
  - split; [reflexivity |].
    split; [apply Number_NaN_iff |].
    split.
    { intros W. unfold Number, StringToNumber. rewrite (trim_blank _ W). reflexivity. }
    split.
    { intros Hne Hd. unfold Number.
      rewrite (StringToNumber_digits _ Hne Hd). split.
      - apply of_decimal_integer.
      - apply of_decimal_exact. }
    split; [| split; [| split]].
    + intros ->. eexists. split; vm_compute; reflexivity.
    + intros ->. eexists. split; vm_compute; reflexivity.
    + intros ->. eexists. split; vm_compute; reflexivity.
    + intros ->. split; reflexivity.
  - split; reflexivity.
Qed.

End PageBuild.

(** * Further properties *)

(** ** The build, stage by stage *)

Section BuildStages.

Variables SSRConfig ProjectStatus Geometry History : Type.
Variable locales : list string.
Variable matter : string -> settled GrayMatterFile.t.
Variable remark_html : string -> settled string.

Implicit Types (w : Upstream SSRConfig ProjectStatus Geometry History).
Implicit Types (context : Context.t).
Implicit Types (props : Props.t SSRConfig ProjectStatus Geometry History).
Implicit Types (project : Centroid.t ProjectStatus).

Lemma find_first {A : Type} (f : A -> bool) (before after : list A) (x : A) :
  (forall y, In y before -> f y = false) -> f x = true ->
  find f (before ++ x :: after) = Some x.
Proof.
  intros Hb Hx. induction before as [| y before IH]; simpl.
  - rewrite Hx. reflexivity.
  - rewrite (Hb y (or_introl eq_refl)). apply IH.
    intros z Hz. apply Hb. right. exact Hz.
Qed.

Lemma find_exists {A : Type} (f : A -> bool) (l : list A) (x : A) :
  In x l -> f x = true -> exists y, find f l = Some y.
Proof.
  intros Hin Hx. destruct (find f l) as [y |] eqn:E; [eauto |].
  rewrite (find_none f l E x Hin) in Hx. discriminate.
Qed.

Lemma strict_eq_true s (p : param) : strict_eq s p = true -> p = param_string s.
Proof.
  destruct p as [| s' | l]; simpl; try discriminate.
  intros H. apply String.eqb_eq in H. congruence.
Qed.

(** X1. Every path [getStaticPaths] enumerates can be built: its locale
    is one of the locales, and the scan of [getStaticProps] for its
    identifier finds a record of the same catalogue, with that
    identifier. *)
Theorem enumerated_paths_are_in_catalogue w projects sp path :
  getProjectCentroids w = fulfilled projects ->
  getStaticPaths locales w = fulfilled sp ->
  In path (StaticPaths.paths sp) ->
  In (Path.locale path) locales
  /\ locale (context_of path) = param_string (Path.locale path)
  /\ exists project,
       find_project (projectId (context_of path)) projects = Some project
       /\ Properties.project_id (Centroid.properties project) = Path.id path.
Proof.
  intros Hc Hp Hin. unfold getStaticPaths in Hp. rewrite Hc in Hp. simpl in Hp.
  injection Hp as <-. simpl in Hin.
  apply in_flat_map in Hin. destruct Hin as (feature & Hf & Hin).
  apply in_map_iff in Hin. destruct Hin as (lng & <- & Hl).
  split; [exact Hl |]. split; [reflexivity |].
  unfold find_project. cbn [context_of projectId context_param Context.params Params.id Path.id].
  destruct (find_exists
              (fun f => strict_eq (Properties.project_id (Centroid.properties f))
                                  (param_string
                                     (Properties.project_id (Centroid.properties feature))))
              (FeatureCollection.features projects) feature Hf)
    as [project Hfind].
  - simpl. apply String.eqb_refl.
  - exists project. split; [exact Hfind |].
    apply find_some in Hfind. destruct Hfind as [_ He].
    simpl in He. apply String.eqb_eq in He. exact He.
Qed.

(** X2. [getStaticPaths] rejects with the reason of the catalogue when
    the catalogue cannot be fetched; otherwise it returns paths, and none
    exactly when the catalogue has no record or there is no locale. *)
Theorem getStaticPaths_edge_cases w :
  (forall e, getProjectCentroids w = rejected e ->
             getStaticPaths locales w = rejected e)
  /\ forall projects,
       getProjectCentroids w = fulfilled projects ->
       exists sp,
         getStaticPaths locales w = fulfilled sp
         /\ (StaticPaths.paths sp = [] <->
             FeatureCollection.features projects = [] \/ locales = []).
Proof.
  split.
  - intros e He. unfold getStaticPaths. rewrite He. reflexivity.
  - intros projects Hc. unfold getStaticPaths. rewrite Hc. simpl.
    eexists. split; [reflexivity |]. simpl.
    fold (pathsWithParams locales (FeatureCollection.features projects)).
    pose proof (length_pathsWithParams ProjectStatus locales
                  (FeatureCollection.features projects)) as L.
    split.
    + intros E. rewrite E in L. simpl in L. symmetry in L.
      apply Nat.eq_mul_0 in L. destruct L as [L | L];
        apply length_zero_iff_nil in L; [right | left]; exact L.
    + intros [E | E]; apply length_zero_iff_nil; rewrite L, E; simpl; lia.
Qed.

(** X3. When several records of the catalogue carry the identifier, the
    page record is built from the first of them. *)
Theorem first_matching_record_is_used w context props before project after :
  getProjectCentroids w = fulfilled (FeatureCollection.mk (before ++ project :: after)) ->
  (forall feature, In feature before ->
     strict_eq (Properties.project_id (Centroid.properties feature))
               (projectId context) = false) ->
  strict_eq (Properties.project_id (Centroid.properties project))
            (projectId context) = true ->
  getStaticProps matter remark_html w context = fulfilled props ->
  exists tr geojson hist html urlResponses,
    joined matter remark_html w context tr project geojson hist html
    /\ props = assemble tr project geojson hist html urlResponses.
Proof.
  intros Hc Hb Hp H. apply getStaticProps_fulfilled_inv in H.
  destruct H as (tr & project' & g & hist & html & infos & J & _ & ->).
  assert (E : project' = project).
  { destruct J as [? projects ? ? ? ? ? _ Hc' Hf _ _ _ _].
    rewrite Hc in Hc'. injection Hc' as <-.
    unfold find_project in Hf. simpl in Hf.
    rewrite (find_first _ before after project Hb Hp) in Hf. congruence. }
  subst project'. exists tr, g, hist, html, infos. split; [exact J | reflexivity].
Qed.

(** X4. A page record is only ever returned for an identifier that is a
    string, never for a missing or a repeated route parameter; it is built
    from a record with exactly that identifier, its history is the one
    fetched for that identifier and its probes are those of that
    identifier. *)
Theorem built_for_a_string_identifier w context props :
  getStaticProps matter remark_html w context = fulfilled props ->
  exists id tr project geojson hist html,
    projectId context = param_string id
    /\ joined matter remark_html w context tr project geojson hist html
    /\ Properties.project_id (Centroid.properties project) = id
    /\ getProjectHistory w id = fulfilled (Props.history props)
    /\ map descriptor (Props.urls props) = urls (param_string id).
Proof.
  intros H. apply getStaticProps_fulfilled_inv in H.
  destruct H as (tr & project & g & hist & html & infos & J & P & ->).
  pose proof J as J'.
  destruct J' as [tr projects project geos hist m html _ _ Hf _ Hh _ _].
  unfold find_project in Hf. apply find_some in Hf. destruct Hf as [_ He].
  apply strict_eq_true in He.
  exists (Properties.project_id (Centroid.properties project)), tr, project,
         (geojson_of (projectId context) geos), hist, html.
  split; [exact He |]. split; [exact J |]. split; [reflexivity |].
  split; [exact Hh |].
  cbn [assemble Props.urls]. rewrite <- He.
  apply (urlResponses_descriptors _ _ _ _ _ _ _ P).
Qed.

(** X5. Nothing that [getStaticProps] awaits is caught: if the
    translations, the catalogue, the geometries, the history, the split or
    the rendering of the description rejects, everything awaited before
    having gone well, the build rejects with that same reason. In
    particular a failing fetch of the geometries or of the history fails
    the page, unlike a missing geometry record. *)
Theorem upstream_failure_is_fatal w context e :
  (serverSideTranslations w (locale context) ["project"; "common"] = rejected e ->
   getStaticProps matter remark_html w context = rejected e)
  /\ forall tr,
       serverSideTranslations w (locale context) ["project"; "common"] = fulfilled tr ->
       (getProjectCentroids w = rejected e ->
        getStaticProps matter remark_html w context = rejected e)
       /\ forall projects project,
            getProjectCentroids w = fulfilled projects ->
            find_project (projectId context) projects = Some project ->
            (getProjectGeometries w = rejected e ->
             getStaticProps matter remark_html w context = rejected e)
            /\ forall geojsons,
                 getProjectGeometries w = fulfilled geojsons ->
                 (getProjectHistory w (Properties.project_id (Centroid.properties project))
                  = rejected e ->
                  getStaticProps matter remark_html w context = rejected e)
                 /\ forall hist,
                      getProjectHistory w (Properties.project_id (Centroid.properties project))
                      = fulfilled hist ->
                      (matter (Properties.project_details (Centroid.properties project))
                       = rejected e ->
                       getStaticProps matter remark_html w context = rejected e)
                      /\ forall m,
                           matter (Properties.project_details (Centroid.properties project))
                           = fulfilled m ->
                           remark_html (replace_escaped_newlines (GrayMatterFile.content m))
                           = rejected e ->
                           getStaticProps matter remark_html w context = rejected e.
Proof.
  unfold getStaticProps, find_project. fold (locale context). fold (projectId context).
  split; [intros ->; reflexivity |].
  intros tr ->. simpl. split; [intros ->; reflexivity |].
  intros projects project -> Hf. simpl. rewrite Hf.
  split; [intros ->; reflexivity |].
  intros geojsons ->. simpl. split; [intros ->; reflexivity |].
  intros hist ->. simpl. split; [intros ->; reflexivity |].
  intros m -> Hr. simpl. rewrite Hr. reflexivity.
Qed.

(** X6. The locale only selects the translations: two builds for the
    same identifier whose translations load end alike, with the same
    error or with records that differ in their translations only. *)
Theorem locale_only_selects_translations w context1 context2 tr1 tr2 :
  projectId context1 = projectId context2 ->
  serverSideTranslations w (locale context1) ["project"; "common"] = fulfilled tr1 ->
  serverSideTranslations w (locale context2) ["project"; "common"] = fulfilled tr2 ->
  getStaticProps matter remark_html w context2
  = settled_map (with_translations tr2) (getStaticProps matter remark_html w context1).
Proof.
  intros Hid H1 H2. unfold getStaticProps.
  fold (locale context1). fold (locale context2).
  fold (projectId context1). fold (projectId context2).
  rewrite H1, H2, Hid. simpl.
  destruct (getProjectCentroids w) as [projects |]; [simpl | reflexivity].
  destruct (find _ (FeatureCollection.features projects)); [| reflexivity].
  destruct (getProjectGeometries w); [simpl | reflexivity].
  destruct (getProjectHistory w _); [simpl | reflexivity].
  destruct (matter _); [simpl | reflexivity].
  destruct (remark_html _); [simpl | reflexivity].
  destruct (Promise_all _); reflexivity.
Qed.

End BuildStages.


Section MissingIdentifier.

Variables SSRConfig ProjectStatus Geometry History : Type.
Variable matter : string -> settled GrayMatterFile.t.
Variable remark_html : string -> settled string.

Implicit Types (w : Upstream SSRConfig ProjectStatus Geometry History).

Lemma find_none_all {A : Type} (f : A -> bool) (l : list A) :
  (forall x, f x = false) -> find f l = None.
Proof.
  intros H. induction l as [| x l IH]; simpl; [reflexivity |].
  rewrite H. exact IH.
Qed.

(** X15. Without a route parameter for the identifier, or with a repeated
    one, the build finds no record whatever the catalogue holds: once the
    translations and the catalogue are loaded it rejects with "Could not
    get project undefined", or with the repeated values separated by
    commas in place of the identifier. *)
Theorem identifier_that_is_no_string_is_not_found w context tr projects :
  serverSideTranslations w (locale context) ["project"; "common"] = fulfilled tr ->
  getProjectCentroids w = fulfilled projects ->
  (Context.params context = None ->
   getStaticProps matter remark_html w context
   = rejected (Error "Could not get project undefined"))
  /\ (projectId context = param_undefined ->
      getStaticProps matter remark_html w context
      = rejected (Error "Could not get project undefined"))
  /\ (forall l, projectId context = param_array l ->
        getStaticProps matter remark_html w context
        = rejected (Error ("Could not get project " ++ String.concat "," l))).
Proof.
  intros Ht Hc.
  assert (U : projectId context = param_undefined ->
              getStaticProps matter remark_html w context
              = rejected (Error "Could not get project undefined")).
  { intros Hu. unfold getStaticProps. fold (locale context). fold (projectId context).
    rewrite Ht. simpl. rewrite Hc. simpl. rewrite Hu.
    rewrite find_none_all by reflexivity. reflexivity. }
  split; [| split].
  - intros Hn. apply U. unfold projectId, context_param. rewrite Hn. reflexivity.
  - exact U.
  - intros l Hl. unfold getStaticProps. fold (locale context). fold (projectId context).
    rewrite Ht. simpl. rewrite Hc. simpl. rewrite Hl.
    rewrite find_none_all by reflexivity. reflexivity.
Qed.

End MissingIdentifier.

(** ** The URLs of the probes *)

Section ProbeUrls.

Lemma chars_app (a b : string) : chars (a ++ b) = (chars a ++ chars b)%list.
Proof. unfold chars. induction a as [| c a IH]; simpl; [| rewrite IH]; reflexivity. Qed.

Lemma chars_inj (a b : string) : chars a = chars b -> a = b.
Proof.
  unfold chars. intros H.
  rewrite <- (string_of_list_ascii_of_string a), <- (string_of_list_ascii_of_string b), H.
  reflexivity.
Qed.

Lemma append_inj_l (a x y : string) : a ++ x = a ++ y -> x = y.
Proof. induction a as [| c a IH]; simpl; intros H; [exact H | injection H as H; auto]. Qed.

Lemma append_inj_r (a b s : string) : a ++ s = b ++ s -> a = b.
Proof.
  intros H. apply chars_inj. apply (f_equal chars) in H.
  rewrite !chars_app in H. apply app_inv_tail in H. exact H.
Qed.

Lemma csv_geom_differ (a b : string) : a ++ ".csv.gz" <> b ++ "_geom.geojson.gz".
Proof.
  intros H. apply (f_equal chars) in H. rewrite !chars_app in H.
  apply (f_equal (@rev ascii)) in H. rewrite !rev_app_distr in H.
  simpl in H. discriminate H.
Qed.

Ltac same_url H :=
  first
    [ apply append_inj_l in H; apply append_inj_r in H
    | exfalso; apply append_inj_l in H; first [ exact (csv_geom_differ _ _ H)
                                              | exact (csv_geom_differ _ _ (eq_sym H)) ]
    | exfalso; cbn [append] in H; discriminate H ].

Lemma probe_urls_injective (id id' : param) (url url' : Url.t) :
  In url (urls id) -> In url' (urls id') ->
  Url.url url = Url.url url' ->
  Url.name url = Url.name url' /\ to_template id = to_template id'.
Proof.
  unfold urls. cbv zeta. cbn [In]. intros Hin Hin' H.
  repeat (destruct Hin as [<- | Hin]); try contradiction;
    repeat (destruct Hin' as [<- | Hin']); try contradiction;
    cbn [Url.url Url.name] in H |- *;
    same_url H; (split; [reflexivity | exact H]).
Qed.

Lemma probe_urls_distinct (id : param) : NoDup (map Url.url (urls id)).
Proof.
  unfold urls. cbv zeta. cbn [map Url.url].
  repeat (constructor; [cbn [In]; intros H;
                        repeat (destruct H as [H | H]; [same_url H |]);
                        exact H |]).
  constructor.
Qed.

(** X7. The ten probes of a project go to ten different URLs, and a URL
    tells which probe it belongs to: two probes with the same URL are of
    the same kind and of the same identifier. *)
Theorem probe_urls_identify_probes (id : param) :
  NoDup (map Url.url (urls id))
  /\ forall (id' : param) (url url' : Url.t),
       In url (urls id) -> In url' (urls id') ->
       Url.url url = Url.url url' ->
       Url.name url = Url.name url' /\ to_template id = to_template id'.
Proof.
  split; [apply probe_urls_distinct |].
  intros id' url url'. apply probe_urls_injective.
Qed.

End ProbeUrls.

Section Rejections.

Context {A : Type}.
Implicit Types (ps : list (promise A)).

Lemma first_rejection_earliest ps t e :
  first_rejection ps = Some (t, e) ->
  forall q e', In q ps -> outcome q = rejected e' -> (t <= settled_at q)%nat.
Proof.
  revert t e. induction ps as [| p ps IH]; intros t e H q e' Hq Ho; [contradiction |].
  simpl in H. destruct Hq as [<- | Hq].
  - rewrite Ho in H. destruct (first_rejection ps) as [[t' e''] |].
    + destruct (settled_at p <=? t')%nat eqn:L; injection H as <- <-.
      * lia.
      * apply Nat.leb_gt in L. lia.
    + injection H as <- <-. lia.
  - destruct (outcome p) as [a | e0].
    + exact (IH _ _ H q e' Hq Ho).
    + destruct (first_rejection ps) as [[t' e''] |] eqn:F.
      * pose proof (IH _ _ eq_refl q e' Hq Ho) as Hle.
        destruct (settled_at p <=? t')%nat eqn:L; injection H as <- <-.
        -- apply Nat.leb_le in L. lia.
        -- exact Hle.
      * apply first_rejection_None in F. rewrite Forall_forall in F.
        destruct (F q Hq) as [a Ha]. congruence.
Qed.

(** [Promise.all] rejects with the reason of the promise that rejected
    before every other one. *)
Lemma Promise_all_earliest ps p e :
  In p ps -> outcome p = rejected e ->
  (forall q e', In q ps -> outcome q = rejected e' ->
                e' = e \/ (settled_at p < settled_at q)%nat) ->
  Promise_all ps = rejected e.
Proof.
  intros Hin Hp Hothers. unfold Promise_all.
  destruct (first_rejection ps) as [[t e0] |] eqn:F.
  - destruct (first_rejection_Some _ _ _ F) as (q & Hq & Ho & Ht).
    pose proof (first_rejection_earliest _ _ _ F p e Hin Hp) as Hle.
    destruct (Hothers q e0 Hq Ho) as [-> | Hlt]; [reflexivity | lia].
  - apply first_rejection_None in F. rewrite Forall_forall in F.
    destruct (F p Hin) as [a Ha]. congruence.
Qed.

End Rejections.

Section ProbeErrors.

Variables SSRConfig ProjectStatus Geometry History : Type.
Variable matter : string -> settled GrayMatterFile.t.
Variable remark_html : string -> settled string.

Implicit Types (w : Upstream SSRConfig ProjectStatus Geometry History).

(** X11. When several probes reject, the build rejects with the reason
    of the probe that rejected first. *)
Theorem earliest_probe_rejection_is_reported
    w context tr project geojson hist html url e :
  joined matter remark_html w context tr project geojson hist html ->
  In url (urls (projectId context)) ->
  outcome (fetch_head w (Url.url url)) = rejected e ->
  (forall url' e',
      In url' (urls (projectId context)) ->
      outcome (fetch_head w (Url.url url')) = rejected e' ->
      e' = e
      \/ (settled_at (fetch_head w (Url.url url))
          < settled_at (fetch_head w (Url.url url')))%nat) ->
  getStaticProps matter remark_html w context = rejected e.
Proof.
  intros J Hin Hrej Hothers.
  rewrite (getStaticProps_joined _ _ _ _ _ _ _ _ _ _ _ _ _ J).
  rewrite (Promise_all_earliest (urlResponsePromises w (projectId context))
             (mkPromise (settled_at (fetch_head w (Url.url url)))
                        (res <- outcome (fetch_head w (Url.url url)) ;;
                         fulfilled (urlInfo url res))) e).
  - reflexivity.
  - unfold urlResponsePromises. apply in_map_iff. exists url. split; [reflexivity | exact Hin].
  - simpl. rewrite Hrej. reflexivity.
  - intros q e' Hq Ho. unfold urlResponsePromises in Hq. apply in_map_iff in Hq.
    destruct Hq as (url' & <- & Hin'). simpl in Ho |- *.
    apply (Hothers url' e' Hin').
    destruct (outcome (fetch_head w (Url.url url'))); simpl in Ho; congruence.
Qed.

End ProbeErrors.

(** ** Escaped line feeds, again *)

Section Normalisation.

Lemma replace_escaped_newlines_fixed s :
  no_escaped_newline s = true -> replace_escaped_newlines s = s.
Proof.
  assert (H : forall s,
             (no_escaped_newline s = true -> replace_escaped_newlines s = s)
             /\ forall c, no_escaped_newline (String c s) = true ->
                          replace_escaped_newlines (String c s) = String c s).
  { clear s. induction s as [| d s [IH1 IH2]].
    - split; [reflexivity | intros c _; reflexivity].
    - split; [apply IH2 |]. intros c Hc.
      cbn [no_escaped_newline] in Hc. apply andb_prop in Hc. destruct Hc as [Hn Hs].
      rewrite replace_escaped_newlines_cons.
      apply negb_true_iff in Hn. rewrite Hn.
      rewrite (IH2 d Hs). reflexivity. }
  apply H.
Qed.

Lemma replace_escaped_newlines_length s :
  (String.length (replace_escaped_newlines s) <= String.length s)%nat.
Proof.
  assert (H : forall s,
             (String.length (replace_escaped_newlines s) <= String.length s)%nat
             /\ forall c, (String.length (replace_escaped_newlines (String c s))
                           <= String.length (String c s))%nat).
  { clear s. induction s as [| d s [IH1 IH2]].
    - split; [simpl; lia | intros c; simpl; lia].
    - split; [apply IH2 |]. intros c.
      rewrite replace_escaped_newlines_cons.
      destruct (Ascii.eqb c backslash && Ascii.eqb d "n").
      + cbn [String.length]. lia.
      + cbn [String.length]. specialize (IH2 d). cbn [String.length] in IH2. lia. }
  apply H.
Qed.

(** X9. Replacing the escaped line feeds twice is replacing them once;
    the replacement leaves a text unchanged exactly when no backslash is
    followed by [n] in it, and never makes a text longer. *)
Theorem replace_escaped_newlines_idempotent s :
  replace_escaped_newlines (replace_escaped_newlines s) = replace_escaped_newlines s
  /\ (replace_escaped_newlines s = s <-> no_escaped_newline s = true)
  /\ (String.length (replace_escaped_newlines s) <= String.length s)%nat.
Proof.
  split; [| split].
  - apply replace_escaped_newlines_fixed, replace_escaped_newlines_complete.
  - split.
    + intros H. rewrite <- H. apply replace_escaped_newlines_complete.
    + apply replace_escaped_newlines_fixed.
  - apply replace_escaped_newlines_length.
Qed.

End Normalisation.

(** ** Sizes and rounded numbers *)

Section Sizes.

Local Open Scope list_scope.

(** X8. A content-length header made of decimal digits that denote an
    integer below 2^53 is recorded exactly: the [size] of the probe result
    is that integer. *)
Theorem size_of_decimal_content_length url res v :
  Response.headers_get res "content-length" = Some v ->
  chars v <> [] -> forallb is_digit (chars v) = true ->
  (Z.of_N (digits_value 10 (chars v)) < 2 ^ 53)%Z ->
  has_value (UrlInfo.size (urlInfo url res))
            (inject_Z (Z.of_N (digits_value 10 (chars v)))).
Proof.
  intros Hh Hne Hd Hb. unfold urlInfo, content_length. cbn [UrlInfo.size].
  rewrite Hh. unfold Number. rewrite (StringToNumber_digits _ Hne Hd).
  apply of_decimal_exact. exact Hb.
Qed.

End Sizes.

Section Rounding.

Local Open Scope Z_scope.

Lemma of_Z_shape k :
  k <> 0 -> Z.abs k <= 2 ^ 52 ->
  exists s m e, of_Z k = S754_finite s m e /\ e <= 0 /\ signed s m = k * 2 ^ (- e).
Proof.
  intros Hk Hb.
  assert (D : forall p, Zpos p <= 2 ^ 52 -> Zpos (digits2_pos p) <= 53).
  { intros p Hp. pose proof (digits2_pos_bounds p) as [Hlo _].
    destruct (Z_le_gt_dec (Zpos (digits2_pos p)) 53) as [| G]; [assumption |].
    assert (2 ^ 53 <= 2 ^ (Zpos (digits2_pos p) - 1)) by (apply Z.pow_le_mono_r; lia).
    change (2 ^ 52) with 4503599627370496 in Hp.
    change (2 ^ 53) with 9007199254740992 in H. lia. }
  unfold of_Z, binary_normalize. destruct k as [| p | p]; [congruence | |].
  - destruct (binary_round_exact false p (D p ltac:(lia))) as (m & e & E & He & Hm).
    exists false, m, e.
    split; [exact E | split; [exact He | unfold signed, cond_Zopp; lia]].
  - destruct (binary_round_exact true p (D p ltac:(lia))) as (m & e & E & He & Hm).
    exists true, m, e.
    split; [exact E | split; [exact He | unfold signed, cond_Zopp; lia]].
Qed.

Lemma round_half_up_bound s m e :
  valid_binary prec emax (S754_finite s m e) = true -> e < 0 ->
  Z.abs (round_half_up s m e) <= 2 ^ 52.
Proof.
  intros V L.
  pose proof (round_half_up_spec s m e L) as R. cbv zeta in R.
  assert (P : 0 < 2 ^ (- e)) by (apply Z.pow_pos_nonneg; lia).
  pose proof (valid_binary_digits _ _ _ V) as Hd.
  pose proof (digits2_pos_bounds m) as [_ Hm].
  assert (2 ^ Zpos (digits2_pos m) <= 2 ^ 53) by (apply Z.pow_le_mono_r; lia).
  assert (2 <= 2 ^ (- e)) by (change 2 with (2 ^ 1) at 1; apply Z.pow_le_mono_r; lia).
  change (2 ^ 53) with 9007199254740992 in *.
  change (2 ^ 52) with 4503599627370496.
  unfold signed, cond_Zopp in R. destruct s; nia.
Qed.

(** [Math.round] of a rounded Number is that Number. *)
Lemma Math_round_idempotent x :
  valid_binary prec emax x = true ->
  Math_round (Math_round x) = Math_round x.
Proof.
  intros V. destruct x as [s | s | | s m e]; try reflexivity.
  assert (G : forall r, Math_round (S754_finite s m e) = r -> Math_round r = r);
    [| apply G; reflexivity].
  intros r <-. unfold Math_round at 2 3. destruct (0 <=? e) eqn:L.
  - simpl. rewrite L. reflexivity.
  - apply Z.leb_gt in L.
    pose proof (round_half_up_bound s m e V L) as B.
    destruct (round_half_up s m e) as [| p | p] eqn:K; [reflexivity | |].
    + destruct (of_Z_shape (Zpos p) ltac:(lia) B) as (s' & m' & e' & E & He & Hs).
      rewrite E. unfold Math_round. destruct (0 <=? e') eqn:L'; [reflexivity |].
      apply Z.leb_gt in L'.
      assert (R : round_half_up s' m' e' = Zpos p).
      { unfold round_half_up. rewrite Hs.
        replace (- e' + 1) with (Z.succ (- e')) by lia. rewrite Z.pow_succ_r by lia.
        assert (P : 0 < 2 ^ (- e')) by (apply Z.pow_pos_nonneg; lia).
        replace (2 * (Zpos p * 2 ^ (- e')) + 2 ^ (- e'))
          with ((2 * Zpos p + 1) * 2 ^ (- e')) by ring.
        rewrite Z.div_mul_cancel_r by lia.
        symmetry. apply Z.div_unique with (r := 1); lia. }
      rewrite R, <- E. reflexivity.
    + destruct (of_Z_shape (Zneg p) ltac:(lia) B) as (s' & m' & e' & E & He & Hs).
      rewrite E. unfold Math_round. destruct (0 <=? e') eqn:L'; [reflexivity |].
      apply Z.leb_gt in L'.
      assert (R : round_half_up s' m' e' = Zneg p).
      { unfold round_half_up. rewrite Hs.
        replace (- e' + 1) with (Z.succ (- e')) by lia. rewrite Z.pow_succ_r by lia.
        assert (P : 0 < 2 ^ (- e')) by (apply Z.pow_pos_nonneg; lia).
        replace (2 * (Zneg p * 2 ^ (- e')) + 2 ^ (- e'))
          with ((2 * Zneg p + 1) * 2 ^ (- e')) by ring.
        rewrite Z.div_mul_cancel_r by lia.
        symmetry. apply Z.div_unique with (r := 1); lia. }
      rewrite R, <- E. reflexivity.
Qed.

End Rounding.

(** ** The rendered pages *)

Section RenderedPages.

Variables SSRConfig ProjectStatus Geometry History : Type.
Variable locales : list string.
Variable matter : string -> settled GrayMatterFile.t.
Variable remark_html : string -> settled string.
Variable styles : Styles.t.
Variable _cs : list (option string) -> string.
Variable useTranslation :
  string -> string -> list (string * interpolation ProjectStatus) -> string.

Implicit Types (w : Upstream SSRConfig ProjectStatus Geometry History).
Implicit Types (props : Props.t SSRConfig ProjectStatus Geometry History).

(** X12. The page rendered from a page record shows one map, with the
    geometry of the first geometry record of the identifier, when there
    is such a record and its geometry is not null, and no map at all
    when there is no such record or when the geometry of the first one
    is null or missing; its other components are the same in all
    cases. *)
Theorem map_shown_iff_geometry_record w context props className :
  getStaticProps matter remark_html w context = fulfilled props ->
  exists geojsons,
    getProjectGeometries w = fulfilled geojsons
    /\ geoJSON_props (Project styles _cs useTranslation className props)
       = match find_geometry (projectId context) geojsons with
         | Some feature =>
             match GeoFeature.geometry feature with
             | value geometry => [geometry]
             | null | undefined => []
             end
         | None => []
         end
    /\ components (Project styles _cs useTranslation className props)
       = (["Hero"; "Section"; "Section"; "Heading"; "HtmlOutput"]
          ++ match find_geometry (projectId context) geojsons with
             | Some feature =>
                 match GeoFeature.geometry feature with
                 | value _ => ["DynamicProjectMap"]
                 | null | undefined => []
                 end
             | None => []
             end)%list.
Proof.
  intros H. apply getStaticProps_fulfilled_inv in H.
  destruct H as (tr & project & g & hist & html & infos & J & _ & ->).
  destruct J as [tr projects project geos hist m html _ _ _ Hg _ _ _].
  exists geos. split; [exact Hg |].
  unfold Project, geojson_of.
  cbn [assemble Props.projectGeoJSON].
  destruct (find_geometry (projectId context) geos) as [feature |];
    [destruct (GeoFeature.geometry feature) |]; split; reflexivity.
Qed.

Lemma joined_same_snapshot w1 w2 context tr project geojson hist html :
  same_snapshot w1 w2 ->
  joined matter remark_html w1 context tr project geojson hist html ->
  joined matter remark_html w2 context tr project geojson hist html.
Proof.
  intros (St & Sc & Sg & Sh) [tr' projects project' geos hist' m html' Ht Hc Hf Hg Hh Hm Hr].
  rewrite St in Ht. rewrite Sc in Hc. rewrite Sg in Hg. rewrite Sh in Hh.
  econstructor; eassumption.
Qed.

Lemma joined_functional w context tr1 tr2 project1 project2
    (geojson1 geojson2 : nullable Geometry) (hist1 hist2 : History) html1 html2 :
  joined matter remark_html w context tr1 project1 geojson1 hist1 html1 ->
  joined matter remark_html w context tr2 project2 geojson2 hist2 html2 ->
  tr1 = tr2 /\ project1 = project2 /\ geojson1 = geojson2
  /\ hist1 = hist2 /\ html1 = html2.
Proof.
  intros [tr1' ps1 p1 gs1 h1 m1 html1' Ht1 Hc1 Hf1 Hg1 Hh1 Hm1 Hr1]
         [tr2' ps2 p2 gs2 h2 m2 html2' Ht2 Hc2 Hf2 Hg2 Hh2 Hm2 Hr2].
  rewrite Ht2 in Ht1. injection Ht1 as <-.
  rewrite Hc2 in Hc1. injection Hc1 as <-.
  rewrite Hf2 in Hf1. injection Hf1 as <-.
  rewrite Hg2 in Hg1. injection Hg1 as <-.
  rewrite Hh2 in Hh1. injection Hh1 as <-.
  rewrite Hm2 in Hm1. injection Hm1 as <-.
  rewrite Hr2 in Hr1. injection Hr1 as <-.
  repeat split.
Qed.

(** X13. What the probes answer never reaches the rendered page: over
    the same upstream data, two builds that return a record render the
    same element, whatever the asset host answered. *)
Theorem rendering_ignores_probes w1 w2 context props1 props2 className :
  same_snapshot w1 w2 ->
  getStaticProps matter remark_html w1 context = fulfilled props1 ->
  getStaticProps matter remark_html w2 context = fulfilled props2 ->
  Project styles _cs useTranslation className props1
  = Project styles _cs useTranslation className props2.
Proof.
  intros S H1 H2.
  apply getStaticProps_fulfilled_inv in H1, H2.
  destruct H1 as (tr1 & p1 & g1 & h1 & html1 & infos1 & J1 & _ & ->).
  destruct H2 as (tr2 & p2 & g2 & h2 & html2 & infos2 & J2 & _ & ->).
  apply (joined_same_snapshot _ _ _ _ _ _ _ _ S) in J1.
  destruct (joined_functional _ _ _ _ _ _ _ _ _ _ _ _ J1 J2)
    as (-> & -> & -> & -> & ->).
  reflexivity.
Qed.

(** X14. The page get-involved is enumerated once per locale, in the
    order of the locales and with the same [fallback] as the project
    pages; every locale of a project path has its get-involved page, and
    when the catalogue is not empty every get-involved page has the
    locale of some project path. *)
Theorem locales_of_both_pages w projects sp :
  getProjectCentroids w = fulfilled projects ->
  getStaticPaths locales w = fulfilled sp ->
  map LocalePath.locale (LocalePaths.paths (GetInvolved.getStaticPaths locales)) = locales
  /\ LocalePaths.fallback (GetInvolved.getStaticPaths locales) = StaticPaths.fallback sp
  /\ (forall path, In path (StaticPaths.paths sp) ->
        In (LocalePath.mk (Path.locale path))
           (LocalePaths.paths (GetInvolved.getStaticPaths locales)))
  /\ (FeatureCollection.features projects <> [] ->
      forall lpath, In lpath (LocalePaths.paths (GetInvolved.getStaticPaths locales)) ->
        exists path, In path (StaticPaths.paths sp)
                     /\ Path.locale path = LocalePath.locale lpath).
Proof.
  intros Hc Hp. unfold getStaticPaths in Hp. rewrite Hc in Hp. simpl in Hp.
  injection Hp as <-.
  unfold GetInvolved.getStaticPaths, GetInvolved.getI18nPaths.
  cbn [LocalePaths.paths LocalePaths.fallback StaticPaths.paths StaticPaths.fallback].
  split; [| split; [reflexivity | split]].
  - rewrite map_map. cbn [LocalePath.locale]. apply map_id.
  - intros path Hin. apply in_flat_map in Hin. destruct Hin as (feature & _ & Hin).
    apply in_map_iff in Hin. destruct Hin as (lng & <- & Hl).
    apply in_map_iff. exists lng. split; [reflexivity | exact Hl].
  - intros Hne lpath Hin. apply in_map_iff in Hin. destruct Hin as (lng & <- & Hl).
    destruct (FeatureCollection.features projects) as [| feature rest] eqn:F;
      [congruence |].
    exists (Path.mk (Properties.project_id (Centroid.properties feature)) lng).
    split; [| reflexivity].
    apply in_flat_map. exists feature. split; [left; reflexivity |].
    apply in_map_iff. exists lng. split; [reflexivity | exact Hl].
Qed.

(** X10. The rounded fields of a page record are stable: [Math.round]
    leaves [totalArea] and [totalProgress] as they are, for an area and a
    product of the fraction by 100 that are normal Numbers. *)
Theorem rounded_fields_are_stable w context props :
  getStaticProps matter remark_html w context = fulfilled props ->
  exists tr project geojson hist html,
    joined matter remark_html w context tr project geojson hist html
    /\ (match Properties.area_sqkm (Centroid.properties project) with
        | value area => valid_binary prec emax area = true
        | null | undefined => True
        end ->
        Math_round (Props.totalArea props) = Props.totalArea props)
    /\ (match Properties.progress (Centroid.properties project) with
        | value fraction => valid_binary prec emax (mul fraction (of_Z 100)) = true
        | null | undefined => True
        end ->
        option_map Math_round (Props.totalProgress props) = Props.totalProgress props).
Proof.
  intros H. apply getStaticProps_fulfilled_inv in H.
  destruct H as (tr & project & g & hist & html & infos & J & _ & ->).
  exists tr, project, g, hist, html. split; [exact J |].
  cbn [assemble Props.totalArea Props.totalProgress].
  unfold totalArea_of, totalProgress_of. split.
  - destruct (Properties.area_sqkm (Centroid.properties project)); cbn [coalesce];
      intros V; try reflexivity.
    apply Math_round_idempotent. exact V.
  - destruct (Properties.progress (Centroid.properties project)); intros V;
      try reflexivity.
    cbn [option_map]. f_equal. apply Math_round_idempotent. exact V.
Qed.

End RenderedPages.

(** * The properties on the example catalogue *)

Section Examples.

Import Example.

Local Abbreviation build := (getStaticProps Reference.matter Reference.remark_html).

Lemma build_page_one : build upstream (context_for "p1") = fulfilled page_one.
Proof. vm_compute. reflexivity. Qed.

Lemma build_page_two : build upstream (context_for "p2") = fulfilled page_two.
Proof. vm_compute. reflexivity. Qed.

Lemma build_page_one_nothing :
  build upstream_nothing (context_for "p1") = fulfilled page_one_nothing.
Proof. vm_compute. reflexivity. Qed.

Lemma joined_page_one (fetch : string -> promise Response.t) :
  joined Reference.matter Reference.remark_html (upstream_with fetch) (context_for "p1")
         "bundle-en" project_one (value "polygon-p1") "history-p1" rendered.
Proof.
  apply (joined_intro Reference.matter Reference.remark_html
           (upstream_with fetch) (context_for "p1")
           "bundle-en" catalogue project_one geometries "history-p1"
           (GrayMatterFile.mk ("# Hello" ++ newline ++ "World")) rendered);
    reflexivity.
Qed.

(** C1, as stated, fails: with one request failing on the network the
    build of the first project rejects with that failure instead of
    returning a record; and with every probe answered, the probe of the
    history, answered with an error page, is recorded with [ok] false and
    the size of that page, not 0. *)
Lemma probe_rejection_fails_the_build :
  build upstream_network_error (context_for "p1")
  = rejected (mkExn "TypeError" "fetch failed")
  /\ build upstream (context_for "p1") = fulfilled page_one
  /\ nth_error (Props.urls page_one) 5
     = Some (UrlInfo.mk DownloadType.history DownloadFileType.geojson
               "https://apps.mapswipe.org/api/history/history_p1.csv"
               false (Number "162"))
  /\ Number "162" <> Number "0".
Proof.
  split; [vm_compute; reflexivity |].
  split; [exact build_page_one |].
  split; [vm_compute; reflexivity |].
  vm_compute. discriminate.
Qed.

Lemma probe_status_tolerated_rejection_fatal_witness :
  (exists urlResponses,
      build upstream (context_for "p1")
      = fulfilled (assemble "bundle-en" project_one (value "polygon-p1")
                            "history-p1" rendered urlResponses))
  /\ (forall props, build upstream_network_error (context_for "p1") <> fulfilled props).
Proof.
  split.
  - destruct (proj2 (proj2 (probe_status_tolerated_rejection_fatal
                              string string string string
                              Reference.matter Reference.remark_html
                              upstream (context_for "p1"))
                           "bundle-en" project_one (value "polygon-p1")
                           "history-p1" rendered (joined_page_one _)))
      as (urlResponses & H & _).
    + intros url _. eexists. reflexivity.
    + exists urlResponses. exact H.
  - refine (proj1 (probe_status_tolerated_rejection_fatal
                     string string string string
                     Reference.matter Reference.remark_html
                     upstream_network_error (context_for "p1"))
                  (Url.mk DownloadType.tasks DownloadFileType.geojson
                     "https://apps.mapswipe.org/api/tasks/tasks_p1.csv.gz")
                  (mkExn "TypeError" "fetch failed") _ _).
    + vm_compute. tauto.
    + reflexivity.
Defined.

Lemma getStaticProps_not_found_witness :
  build upstream (context_for "p9") = rejected (Error "Could not get project p9").
Proof.
  refine (proj2 (getStaticProps_not_found string string string string
                   Reference.matter Reference.remark_html
                   upstream (context_for "p9") catalogue eq_refl _)
                "bundle-en" eq_refl).
  intros feature [<- | [<- | []]]; reflexivity.
Defined.

Lemma urls_in_catalogue_order_witness :
  List.length (Props.urls page_one) = 10%nat
  /\ map descriptor (Props.urls page_one) = urls (param_string "p1")
  /\ forall instant : string -> nat,
       build (retimed instant upstream) (context_for "p1") = fulfilled page_one.
Proof.
  destruct (urls_in_catalogue_order string string string string
              Reference.matter Reference.remark_html
              upstream (context_for "p1") page_one build_page_one)
    as (L & D & _ & R).
  exact (conj L (conj D R)).
Defined.

(** C4, as stated, fails: the catalogue may list an identifier twice, and
    then each of its paths is enumerated twice. *)
Lemma duplicate_identifier_is_enumerated_twice :
  exists sp,
    getStaticPaths ["en"; "de"] ExamplePage.upstream_duplicates = fulfilled sp
    /\ List.length (StaticPaths.paths sp) = (2 * 3)%nat
    /\ count_occ Path_eq_dec (StaticPaths.paths sp) (Path.mk "p1" "en") = 2%nat
    /\ ~ NoDup (StaticPaths.paths sp).
Proof.
  eexists. split; [reflexivity |].
  split; [reflexivity |].
  split; [vm_compute; reflexivity |].
  intros U.
  pose proof (proj1 (NoDup_count_occ Path_eq_dec _) U (Path.mk "p1" "en")) as H.
  vm_compute in H. lia.
Qed.

Lemma getStaticPaths_cartesian_product_witness :
  exists sp,
    getStaticPaths ["en"; "de"; "fr"] upstream = fulfilled sp
    /\ List.length (StaticPaths.paths sp) = 6%nat
    /\ NoDup (StaticPaths.paths sp).
Proof.
  destruct (getStaticPaths_cartesian_product string string string string
              ["en"; "de"; "fr"] upstream catalogue eq_refl)
    as (sp & H & _ & L & _ & _ & U).
  exists sp. split; [exact H |]. split; [exact L |].
  apply U.
  - repeat constructor; simpl; intuition discriminate.
  - repeat constructor; simpl; intuition discriminate.
Defined.

Lemma totalProgress_normalised_witness :
  exists tr project geojson hist html,
    joined Reference.matter Reference.remark_html upstream (context_for "p1")
           tr project geojson hist html
    /\ match Properties.progress (Centroid.properties project) with
       | value fraction =>
           Props.totalProgress page_one = Some (Math_round (mul fraction (of_Z 100)))
           /\ (is_finite (mul fraction (of_Z 100)) = true ->
               nearest_integer_of (mul fraction (of_Z 100))
                                  (Math_round (mul fraction (of_Z 100))))
           /\ (fraction = Number "0.4567" ->
               Props.totalProgress page_one = Some (Number "46"))
       | null | undefined => Props.totalProgress page_one = None
       end.
Proof.
  exact (totalProgress_normalised string string string string
           Reference.matter Reference.remark_html
           upstream (context_for "p1") page_one build_page_one).
Defined.

Lemma totalArea_normalised_witness :
  exists tr project geojson hist html,
    joined Reference.matter Reference.remark_html upstream (context_for "p1")
           tr project geojson hist html
    /\ match Properties.area_sqkm (Centroid.properties project) with
       | value area =>
           Props.totalArea page_one = Math_round area
           /\ (is_finite area = true -> nearest_integer_of area (Math_round area))
           /\ (area = Number "12.3" -> Props.totalArea page_one = Number "12")
       | null | undefined => Props.totalArea page_one = Number "0"
       end.
Proof.
  exact (totalArea_normalised string string string string
           Reference.matter Reference.remark_html
           upstream (context_for "p1") page_one build_page_one).
Defined.

Lemma missing_geometry_is_absent_witness :
  geojson_of (param_string "p2") geometries = undefined
  /\ Props.projectGeoJSON page_two = None
  /\ Props.name page_two = "Project Two".
Proof.
  destruct (missing_geometry_is_absent string string string string
              Reference.matter Reference.remark_html
              upstream (context_for "p2") geometries eq_refl)
    as (U & N & _ & _).
  - intros feature [<- | []]. reflexivity.
  - split; [exact U |]. split; [exact (N page_two build_page_two) | reflexivity].
Defined.

Lemma getStaticProps_deterministic_witness :
  page_one = with_urls page_one_nothing (Props.urls page_one)
  /\ map descriptor (Props.urls page_one) = map descriptor (Props.urls page_one_nothing).
Proof.
  destruct (getStaticProps_deterministic string string string string
              Reference.matter Reference.remark_html
              upstream upstream_nothing (context_for "p1") page_one page_one_nothing)
    as (E & D & _ & _).
  - repeat split.
  - exact build_page_one.
  - exact build_page_one_nothing.
  - exact (conj E D).
Defined.

Lemma size_is_Number_of_content_length_witness :
  Forall2 (fun url info =>
             exists res,
               outcome (fetch_head upstream (Url.url url)) = fulfilled res
               /\ UrlInfo.ok info = Response.ok res
               /\ match Response.headers_get res "content-length" with
                  | Some v =>
                      UrlInfo.size info = Number v
                      /\ (UrlInfo.size info = NaN <-> ~ numeric_string v)
                      /\ (StrWhiteSpace (chars v) -> UrlInfo.size info = S754_zero false)
                      /\ (chars v <> [] -> forallb is_digit (chars v) = true ->
                          UrlInfo.size info = of_Z (Z.of_N (digits_value 10 (chars v)))
                          /\ ((Z.of_N (digits_value 10 (chars v)) < 2 ^ 53)%Z ->
                              has_value (UrlInfo.size info)
                                        (inject_Z (Z.of_N (digits_value 10 (chars v))))))
                      /\ (v = "162" -> has_value (UrlInfo.size info) (inject_Z 162))
                      /\ (v = "1e3" -> has_value (UrlInfo.size info) (inject_Z 1000))
                      /\ (v = "0x1F" -> has_value (UrlInfo.size info) (inject_Z 31))
                      /\ (Response.ok res = false ->
                          UrlInfo.ok info = false /\ UrlInfo.size info = Number v)
                  | None =>
                      UrlInfo.size info = Number "0"
                      /\ UrlInfo.size info = S754_zero false
                  end)
          (urls (param_string "p1")) (Props.urls page_one).
Proof.
  exact (size_is_Number_of_content_length string string string string
           Reference.matter Reference.remark_html
           upstream (context_for "p1") page_one build_page_one).
Defined.

End Examples.

(** * The further properties on the examples *)

Section MoreExamples.

Import Example ExamplePage.

Local Abbreviation build := (getStaticProps Reference.matter Reference.remark_html).
Local Abbreviation render := (Project (SSRConfig := string) (History := string)
                                styles _cs useTranslation None).

Lemma build_duplicates :
  build upstream_duplicates (context_for "p1") = fulfilled page_one.
Proof. vm_compute. reflexivity. Qed.

Lemma build_null_geometry :
  build upstream_null_geometry (context_for "p1") = fulfilled page_one_unmapped.
Proof. vm_compute. reflexivity. Qed.

Lemma enumerated_paths_are_in_catalogue_witness :
  In "de" ["en"; "de"]
  /\ exists project,
       find_project (param_string "p2") catalogue = Some project
       /\ Properties.project_id (Centroid.properties project) = "p2".
Proof.
  destruct (enumerated_paths_are_in_catalogue string string string string
              ["en"; "de"] upstream catalogue
              (StaticPaths.mk (pathsWithParams ["en"; "de"]
                                 (FeatureCollection.features catalogue)) false)
              (Path.mk "p2" "de") eq_refl eq_refl)
    as (L & _ & P).
  - vm_compute. tauto.
  - exact (conj L P).
Defined.

Lemma getStaticPaths_edge_cases_witness :
  exists sp,
    getStaticPaths [] upstream = fulfilled sp
    /\ (StaticPaths.paths sp = [] <->
        FeatureCollection.features catalogue = [] \/ @nil string = []).
Proof.
  exact (proj2 (getStaticPaths_edge_cases string string string string [] upstream)
               catalogue eq_refl).
Defined.

Lemma first_matching_record_is_used_witness :
  exists tr geojson hist html urlResponses,
    joined Reference.matter Reference.remark_html upstream_duplicates (context_for "p1")
           tr project_one geojson hist html
    /\ page_one = assemble tr project_one geojson hist html urlResponses.
Proof.
  refine (first_matching_record_is_used string string string string
            Reference.matter Reference.remark_html
            upstream_duplicates (context_for "p1") page_one
            [project_two] project_one [project_shadowed]
            eq_refl _ eq_refl build_duplicates).
  intros feature [<- | []]. reflexivity.
Defined.

Lemma built_for_a_string_identifier_witness :
  exists id tr project geojson hist html,
    projectId (context_for "p1") = param_string id
    /\ joined Reference.matter Reference.remark_html upstream (context_for "p1")
              tr project geojson hist html
    /\ Properties.project_id (Centroid.properties project) = id
    /\ getProjectHistory upstream id = fulfilled (Props.history page_one)
    /\ map descriptor (Props.urls page_one) = urls (param_string id).
Proof.
  exact (built_for_a_string_identifier string string string string
           Reference.matter Reference.remark_html
           upstream (context_for "p1") page_one build_page_one).
Defined.

Lemma upstream_failure_is_fatal_witness :
  build upstream_history_down (context_for "p1")
  = rejected (mkExn "Error" "history unavailable").
Proof.
  destruct (upstream_failure_is_fatal string string string string
              Reference.matter Reference.remark_html
              upstream_history_down (context_for "p1")
              (mkExn "Error" "history unavailable")) as [_ H].
  destruct (H "bundle-en" eq_refl) as [_ H2].
  destruct (H2 catalogue project_one eq_refl eq_refl) as [_ H3].
  destruct (H3 geometries eq_refl) as [H4 _].
  exact (H4 eq_refl).
Defined.

Lemma locale_only_selects_translations_witness :
  build upstream (context_in "de" "p1")
  = settled_map (with_translations "bundle-de") (build upstream (context_in "en" "p1")).
Proof.
  exact (locale_only_selects_translations string string string string
           Reference.matter Reference.remark_html
           upstream (context_in "en" "p1") (context_in "de" "p1")
           "bundle-en" "bundle-de" eq_refl eq_refl eq_refl).
Defined.

Lemma identifier_that_is_no_string_is_not_found_witness :
  build upstream context_without_params
  = rejected (Error "Could not get project undefined").
Proof.
  exact (proj1 (identifier_that_is_no_string_is_not_found string string string string
                  Reference.matter Reference.remark_html
                  upstream context_without_params "bundle-undefined" catalogue
                  eq_refl eq_refl)
               eq_refl).
Defined.

Lemma probe_urls_identify_probes_witness :
  NoDup (map Url.url (urls (param_string "p1")))
  /\ (Url.name (Url.mk DownloadType.tasks DownloadFileType.geojson
                  "https://apps.mapswipe.org/api/tasks/tasks_p1.csv.gz")
      = Url.name (Url.mk DownloadType.tasks DownloadFileType.geojson
                    "https://apps.mapswipe.org/api/tasks/tasks_p1.csv.gz")
      /\ to_template (param_string "p1") = to_template (param_string "p1")).
Proof.
  destruct (probe_urls_identify_probes (param_string "p1")) as [D I].
  split; [exact D |].
  apply (I (param_string "p1")); [vm_compute; tauto | vm_compute; tauto | reflexivity].
Defined.

Lemma earliest_probe_rejection_is_reported_witness :
  build upstream_two_errors (context_for "p1")
  = rejected (mkExn "TimeoutError" "timed out").
Proof.
  refine (earliest_probe_rejection_is_reported string string string string
            Reference.matter Reference.remark_html
            upstream_two_errors (context_for "p1")
            "bundle-en" project_one (value "polygon-p1") "history-p1" rendered
            (Url.mk DownloadType.users DownloadFileType.geojson
               "https://apps.mapswipe.org/api/users/users_p1.csv.gz")
            (mkExn "TimeoutError" "timed out")
            (joined_page_one _) _ eq_refl _).
  - vm_compute. tauto.
  - intros url' e' Hin.
    cbv [urls projectId context_for context_param Context.params Params.id to_template]
      in Hin.
    cbn [In] in Hin.
    repeat (destruct Hin as [<- | Hin]); try contradiction;
      vm_compute; intros E; try discriminate E; [right; lia | left; congruence].
Defined.

Lemma size_of_decimal_content_length_witness :
  has_value
    (UrlInfo.size
       (urlInfo (Url.mk DownloadType.aggregated_results DownloadFileType.csv
                   "https://apps.mapswipe.org/api/agg_results/agg_results_p1.csv.gz")
                (answer "https://apps.mapswipe.org/api/agg_results/agg_results_p1.csv.gz")))
    (inject_Z (Z.of_N (digits_value 10 (chars "1024")))).
Proof.
  apply (size_of_decimal_content_length _ _ "1024").
  - reflexivity.
  - discriminate.
  - reflexivity.
  - reflexivity.
Defined.

Lemma rounded_fields_are_stable_witness :
  Math_round (Props.totalArea page_one) = Props.totalArea page_one
  /\ option_map Math_round (Props.totalProgress page_one) = Props.totalProgress page_one.
Proof.
  destruct (rounded_fields_are_stable string string string string
              Reference.matter Reference.remark_html
              upstream (context_for "p1") page_one build_page_one)
    as (tr & project & g & hist & html & J & A & P).
  destruct (joined_functional string string string string
              Reference.matter Reference.remark_html
              _ _ _ _ _ _ _ _ _ _ _ _ J (joined_page_one _))
    as (_ & -> & _).
  split; [apply A | apply P]; reflexivity.
Defined.

Lemma map_shown_iff_geometry_record_witness :
  (geoJSON_props (render page_one) = ["polygon-p1"]
   /\ components (render page_one)
      = ["Hero"; "Section"; "Section"; "Heading"; "HtmlOutput"; "DynamicProjectMap"])
  /\ (geoJSON_props (render page_two) = []
      /\ components (render page_two)
         = ["Hero"; "Section"; "Section"; "Heading"; "HtmlOutput"])
  /\ (geoJSON_props (render page_one_unmapped) = []
      /\ components (render page_one_unmapped)
         = ["Hero"; "Section"; "Section"; "Heading"; "HtmlOutput"]).
Proof.
  split; [| split].
  - destruct (map_shown_iff_geometry_record string string string string
                Reference.matter Reference.remark_html styles _cs useTranslation
                upstream (context_for "p1") page_one None build_page_one)
      as (geojsons & Hg & M & C).
    injection Hg as <-. exact (conj M C).
  - destruct (map_shown_iff_geometry_record string string string string
                Reference.matter Reference.remark_html styles _cs useTranslation
                upstream (context_for "p2") page_two None build_page_two)
      as (geojsons & Hg & M & C).
    injection Hg as <-. exact (conj M C).
  - destruct (map_shown_iff_geometry_record string string string string
                Reference.matter Reference.remark_html styles _cs useTranslation
                upstream_null_geometry (context_for "p1") page_one_unmapped None
                build_null_geometry)
      as (geojsons & Hg & M & C).
    injection Hg as <-. exact (conj M C).
Defined.

Lemma rendering_ignores_probes_witness :
  render page_one = render page_one_nothing.
Proof.
  refine (rendering_ignores_probes string string string string
            Reference.matter Reference.remark_html styles _cs useTranslation
            upstream upstream_nothing (context_for "p1") page_one page_one_nothing None
            _ build_page_one build_page_one_nothing).
  repeat split.
Defined.

Lemma locales_of_both_pages_witness :
  map LocalePath.locale (LocalePaths.paths (GetInvolved.getStaticPaths ["en"; "de"]))
  = ["en"; "de"]
  /\ forall lpath,
       In lpath (LocalePaths.paths (GetInvolved.getStaticPaths ["en"; "de"])) ->
       exists path,
         In path (pathsWithParams ["en"; "de"] (FeatureCollection.features catalogue))
         /\ Path.locale path = LocalePath.locale lpath.
Proof.
  destruct (locales_of_both_pages string string string string ["en"; "de"]
              upstream catalogue
              (StaticPaths.mk (pathsWithParams ["en"; "de"]
                                 (FeatureCollection.features catalogue)) false)
              eq_refl eq_refl)
    as (L & _ & _ & C).
  split; [exact L |]. apply C. discriminate.
Defined.

End MoreExamples.
